(** * Canvas composition engine of the property QR page (src/app/qr/page.tsx)

    Shallow embedding of [createQRCodeImage], [createQRCanvas], the two
    exporters [downloadAsImage] / [downloadAsPDF] and the render gate of
    [QRContent].

    Modelling choices:
    - JS numbers are exact rationals [Q], every arithmetic result kept in
      lowest terms ([Qred]) so that equal values are equal terms;
    - a canvas is its size plus the list of drawing operations issued on it,
      in order; an image produced by [canvas.toDataURL()] and re-decoded is
      [Rendered w h ops];
    - promises are [result]: [Ok v] when they resolve, [Err msg] when they
      reject; the outcome of every asynchronous browser or library step
      (QR encoding, image decoding, asset loading) is read from an
      environment [env]. *)

From Stdlib Require Import QArith Qminmax Qround String List ZArith Bool Lia Lqa.
Import ListNotations.
Open Scope string_scope.

(* ------------------------------------------------------------------ *)
(** ** JS numbers *)

Definition num := Q.
Definition nadd (a b : Q) : Q := Qred (a + b).
Definition nsub (a b : Q) : Q := Qred (a - b).
Definition nmul (a b : Q) : Q := Qred (a * b).
Definition ndiv (a b : Q) : Q := Qred (a / b).
(** [Math.floor] *)
Definition nfloor (a : Q) : Q := inject_Z (Qfloor a).
(** [Math.min] *)
Definition nmin (a b : Q) : Q := Qmin a b.

(** JS truthiness of a string: only [""] is falsy. *)
Definition truthy (s : string) : bool := negb (String.eqb s "").

(* ------------------------------------------------------------------ *)
(** ** The qrcode library's options *)

(** Error-correction levels of the qrcode library. *)
Inductive ec_level := ECL | ECM | ECQ | ECH.

(** The options object passed to [QRCode.toDataURL]; a key the caller does
    not write is [None]. *)
Record qr_options := {
  qo_width : Q;
  qo_margin : Q;
  qo_errorCorrectionLevel : option ec_level;
  qo_dark : string;
  qo_light : string
}.

(** The qrcode library resolves the level with
    [ECLevel.from(options.errorCorrectionLevel, ECLevel.M)]:
    an absent level means level M. *)
Definition resolved_level (o : qr_options) : ec_level :=
  match qo_errorCorrectionLevel o with
  | Some l => l
  | None => ECM
  end.

(* ------------------------------------------------------------------ *)
(** ** Images, drawing operations, canvases *)

Record font := { font_weight : string; font_size : Q; font_family : string }.

(** [setCanvasFont]'s font stack. *)
Definition fontStack : string :=
  "Tajawal, Segoe UI, Tahoma, Arial, sans-serif".

Inductive image :=
| QRRaw (value : string) (opts : qr_options)   (* data URL of QRCode.toDataURL *)
| AppLogo                                       (* "/logo/logo.png" *)
| OfficeLogo (src : string)                     (* qrData.officeLogo *)
| Rendered (w h : Q) (ops : list op)            (* canvas.toDataURL(), re-decoded *)
with op :=
| FillRect (style : string) (x y w h : Q)
| FillRoundRect (style : string) (x y w h r : Q)
| DrawImage (img : image) (x y w h : Q)
| FillText (style : string) (f : font) (align baseline : string) (text : string) (x y : Q).

(** A canvas: [canvas.width], [canvas.height] and what was drawn. *)
Record canvas := { cv_width : Q; cv_height : Q; cv_ops : list op }.

(** Outcome of a promise. *)
Inductive result (A : Type) := Ok (v : A) | Err (msg : string).
Arguments Ok {A} v.
Arguments Err {A} msg.

(** Outcomes of the asynchronous browser and library steps. *)
Record env := {
  (* [Some err] when [QRCode.toDataURL] calls back with an error *)
  qr_encode : string -> qr_options -> option string;
  (* [qrImg.onload] (true) or [qrImg.onerror] (false) *)
  qr_img_loads : bool;
  (* [finalImg.onload] (true) or [finalImg.onerror] (false) *)
  final_img_loads : bool;
  (* [logoImg.onload] for "/logo/logo.png" *)
  app_logo_loads : bool;
  (* [logoImg.onload] for an office logo source *)
  office_logo_loads : string -> bool;
  (* [canvas.getContext("2d")] is non-null *)
  context_available : bool;
  (* [new Date().getTime()] *)
  now : Z
}.

(* ------------------------------------------------------------------ *)
(** ** createQRCodeImage *)

(** The options object the export path passes to [QRCode.toDataURL]. *)
Definition qr_options_of (size : Q) : qr_options := {|
  qo_width := size;
  qo_margin := 1;
  qo_errorCorrectionLevel := None;
  qo_dark := "#000000";
  qo_light := "#FFFFFF"
|}.

(** The badge and the logo drawn over the QR when [showLogo] is true;
    the logo only when [logoImg] loads. *)
Definition logo_overlay (logo_loads : bool) (size : Q) : list op :=
  let logoContainerSize := ndiv size 5 in
  let centerX := ndiv size 2 in
  let centerY := ndiv size 2 in
  let borderRadius := nmul logoContainerSize 0.2 in
  let badge :=
    FillRoundRect "#FFFFFF"
      (nsub centerX (ndiv logoContainerSize 2))
      (nsub centerY (ndiv logoContainerSize 2))
      logoContainerSize logoContainerSize borderRadius in
  let padding := nmul logoContainerSize 0.08 in
  let logoAreaSize := nsub logoContainerSize (nmul padding 2) in
  let logoX := nsub centerX (ndiv logoAreaSize 2) in
  let logoY := nsub centerY (ndiv logoAreaSize 2) in
  badge :: (if logo_loads
            then [DrawImage AppLogo logoX logoY logoAreaSize logoAreaSize]
            else []).

Definition createQRCodeImage (e : env) (value : string) (size : Q)
    (showLogo : bool) : result image :=
  let opts := qr_options_of size in
  match qr_encode e value opts with
  | Some err => Err err
  | None =>
      if negb (qr_img_loads e) then Err "Failed to load QR code" else
      let ops :=
        DrawImage (QRRaw value opts) 0 0 size size
          :: (if showLogo then logo_overlay (app_logo_loads e) size else []) in
      if final_img_loads e then Ok (Rendered size size ops)
      else Err "Failed to create QR code image"
  end.

(* ------------------------------------------------------------------ *)
(** ** Drawing monad: a 2D context threaded through, rejection as [Err] *)

Record ctx2d := {
  fillStyle : string;
  ctx_font : font;
  textAlign : string;
  textBaseline : string
}.

(** Canvas state: the context's drawing state and the canvas itself. *)
Record cstate := { cs_ctx : ctx2d; cs_canvas : canvas }.

Definition M (A : Type) : Type := cstate -> result (A * cstate).

Definition ret {A} (a : A) : M A := fun s => Ok (a, s).
Definition bind {A B} (m : M A) (k : A -> M B) : M B :=
  fun s => match m s with
           | Ok (a, s') => k a s'
           | Err msg => Err msg
           end.
(** [throw] / [reject] *)
Definition fail {A} (msg : string) : M A := fun _ => Err msg.
(** [await] of a promise that does not touch the canvas. *)
Definition await {A} (r : result A) : M A :=
  fun s => match r with Ok a => Ok (a, s) | Err msg => Err msg end.

Notation "x <- m ;; k" := (bind m (fun x => k))
  (at level 61, m at next level, right associativity).
Notation "m ;;; k" := (bind m (fun _ => k))
  (at level 61, right associativity).

Definition upd_ctx (f : ctx2d -> ctx2d) : M unit :=
  fun s => Ok (tt, {| cs_ctx := f (cs_ctx s); cs_canvas := cs_canvas s |}).

Definition emit (o : op) : M unit :=
  fun s => let c := cs_canvas s in
           Ok (tt, {| cs_ctx := cs_ctx s;
                      cs_canvas := {| cv_width := cv_width c;
                                      cv_height := cv_height c;
                                      cv_ops := cv_ops c ++ [o] |} |}).

Definition set_size (w h : Q) : M unit :=
  fun s => let c := cs_canvas s in
           Ok (tt, {| cs_ctx := cs_ctx s;
                      cs_canvas := {| cv_width := w; cv_height := h;
                                      cv_ops := cv_ops c |} |}).

Definition set_fillStyle (st : string) : M unit :=
  upd_ctx (fun c => {| fillStyle := st; ctx_font := ctx_font c;
                       textAlign := textAlign c; textBaseline := textBaseline c |}).
Definition set_textAlign (a : string) : M unit :=
  upd_ctx (fun c => {| fillStyle := fillStyle c; ctx_font := ctx_font c;
                       textAlign := a; textBaseline := textBaseline c |}).
Definition set_textBaseline (b : string) : M unit :=
  upd_ctx (fun c => {| fillStyle := fillStyle c; ctx_font := ctx_font c;
                       textAlign := textAlign c; textBaseline := b |}).

(** [setCanvasFont(ctx, fontSize, fontWeight)] *)
Definition setCanvasFont (fontSize : Q) (fontWeight : string) : M unit :=
  upd_ctx (fun c => {| fillStyle := fillStyle c;
                       ctx_font := {| font_weight := fontWeight;
                                      font_size := fontSize;
                                      font_family := fontStack |};
                       textAlign := textAlign c; textBaseline := textBaseline c |}).

Definition get_ctx : M ctx2d := fun s => Ok (cs_ctx s, s).
Definition get_canvas : M canvas := fun s => Ok (cs_canvas s, s).

Definition fillRect (x y w h : Q) : M unit :=
  c <- get_ctx ;; emit (FillRect (fillStyle c) x y w h).
Definition drawImage (img : image) (x y w h : Q) : M unit :=
  emit (DrawImage img x y w h).
Definition fillText (t : string) (x y : Q) : M unit :=
  c <- get_ctx ;;
  emit (FillText (fillStyle c) (ctx_font c) (textAlign c) (textBaseline c) t x y).

(** A fresh [document.createElement("canvas")] and its default 2D context. *)
Definition fresh_state : cstate := {|
  cs_ctx := {| fillStyle := "#000000";
               ctx_font := {| font_weight := "normal"; font_size := 10;
                              font_family := "sans-serif" |};
               textAlign := "start"; textBaseline := "alphabetic" |};
  cs_canvas := {| cv_width := 300; cv_height := 150; cv_ops := [] |}
|}.

Definition run {A} (m : M A) : result A :=
  match m fresh_state with Ok (a, _) => Ok a | Err msg => Err msg end.

(* ------------------------------------------------------------------ *)
(** ** createQRCanvas *)

(** The session record ([QRData]). *)
Record QRData := {
  details : string;
  license : string;
  officeName : string;
  officeLogo : string
}.

Definition office_caption : string := "المكتب الوسيط".
Definition details_caption : string := "تفاصيل العقار ومالك العقار".
Definition license_caption : string := "رخصة الإعلان من هيئة العقار".

(** The office branding block; returns the advanced [currentY]. *)
Definition office_block (e : env) (d : QRData) (width currentY : Q) : M Q :=
  if truthy (officeName d) || truthy (officeLogo d) then
    currentY <-
      (if truthy (officeLogo d) then
         (if office_logo_loads e (officeLogo d) then ret tt
          else fail "Failed to load office logo") ;;;
         let logoSize := 120 in
         drawImage (OfficeLogo (officeLogo d))
           (nsub (ndiv width 2) (ndiv logoSize 2)) currentY logoSize logoSize ;;;
         ret (nadd currentY (nadd logoSize 30))
       else ret currentY) ;;
    (if truthy (officeName d) then
       setCanvasFont 32 "bold" ;;;
       fillText office_caption (ndiv width 2) currentY ;;;
       let currentY := nadd currentY 40 in
       setCanvasFont 28 "normal" ;;;
       fillText (officeName d) (ndiv width 2) currentY ;;;
       ret (nadd currentY 80)
     else ret currentY)
  else ret currentY.

Definition compose (e : env) (d : QRData) : M canvas :=
  (if context_available e then ret tt
   else fail "Could not get canvas context") ;;;
  let width := 1200 in
  let height := 1600 in
  set_size width height ;;;
  set_fillStyle "#ffffff" ;;;
  fillRect 0 0 width height ;;;
  set_fillStyle "#000000" ;;;
  set_textAlign "center" ;;;
  set_textBaseline "middle" ;;;
  let currentY := 100 in
  currentY <- office_block e d width currentY ;;
  let mainQRSize := nfloor (nmul width 0.75) in
  mainQRImg <- await (createQRCodeImage e (details d) mainQRSize true) ;;
  drawImage mainQRImg (nsub (ndiv width 2) (ndiv mainQRSize 2)) currentY
    mainQRSize mainQRSize ;;;
  let currentY := nadd currentY (nadd mainQRSize 50) in
  setCanvasFont 32 "bold" ;;;
  fillText details_caption (ndiv width 2) currentY ;;;
  let currentY := nadd currentY 80 in
  let currentY := nadd currentY 30 in
  let licenseSectionHeight := 200 in
  let licenseSectionY := currentY in
  set_fillStyle "#f8f9fa" ;;;
  fillRect 50 licenseSectionY (nsub width 100) licenseSectionHeight ;;;
  set_fillStyle "#000000" ;;;
  let licenseCenterY := nadd licenseSectionY (ndiv licenseSectionHeight 2) in
  licenseQRImg <- await (createQRCodeImage e (license d) 150 false) ;;
  drawImage licenseQRImg 150 (nsub licenseCenterY 75) 150 150 ;;;
  setCanvasFont 28 "bold" ;;;
  set_textAlign "right" ;;;
  fillText license_caption (nsub width 150) licenseCenterY ;;;
  get_canvas.

(** [createQRCanvas]: the component's [qrData] state is its input; the
    [try { ... } catch (error) { throw error; }] rethrows unchanged. *)
Definition createQRCanvas (e : env) (qrData : option QRData) : result canvas :=
  match qrData with
  | None => Err "No QR data available"
  | Some d => run (compose e d)
  end.

(* ------------------------------------------------------------------ *)
(** ** The composed canvas in closed form *)

Definition bold32 : font :=
  {| font_weight := "bold"; font_size := 32; font_family := fontStack |}.
Definition normal28 : font :=
  {| font_weight := "normal"; font_size := 28; font_family := fontStack |}.
Definition bold28 : font :=
  {| font_weight := "bold"; font_size := 28; font_family := fontStack |}.

(** [currentY] when the details QR is drawn, from the two branding flags. *)
Definition details_qr_y (hasName hasLogo : bool) : Q :=
  match hasLogo, hasName with
  | false, false => 100
  | true, false => 250
  | false, true => 220
  | true, true => 370
  end.

(** The office branding block as drawn. *)
Definition branding_ops (d : QRData) : list op :=
  let hasName := truthy (officeName d) in
  let hasLogo := truthy (officeLogo d) in
  (if hasLogo then [DrawImage (OfficeLogo (officeLogo d)) 540 100 120 120]
   else [])
  ++ (if hasName then
        let y := if hasLogo then 250 else 100 in
        [FillText "#000000" bold32 "center" "middle" office_caption 600 y;
         FillText "#000000" normal28 "center" "middle" (officeName d) 600
           (nadd y 40)]
      else []).

(** What [compose] draws once every awaited step has resolved. *)
Definition expected_canvas (d : QRData) (mainImg licImg : image) : canvas :=
  let hasName := truthy (officeName d) in
  let hasLogo := truthy (officeLogo d) in
  let Y := details_qr_y hasName hasLogo in
  {| cv_width := 1200; cv_height := 1600; cv_ops :=
    [FillRect "#ffffff" 0 0 1200 1600]
    ++ branding_ops d
    ++ [DrawImage mainImg 150 Y 900 900;
        FillText "#000000" bold32 "center" "middle" details_caption 600 (nadd Y 950);
        FillRect "#f8f9fa" 50 (nadd Y 1060) 1100 200;
        DrawImage licImg 150 (nadd Y 1085) 150 150;
        FillText "#000000" bold28 "right" "middle" license_caption 1050
          (nadd Y 1160)] |}.

Lemma mainQRSize_eq : nfloor (nmul 1200 0.75) = 900.
Proof. reflexivity. Qed.

(** [createQRCanvas] on a record: its failure points in order, then the
    closed-form canvas. *)
Lemma createQRCanvas_eq (e : env) (d : QRData) :
  createQRCanvas e (Some d) =
  if negb (context_available e) then Err "Could not get canvas context" else
  if truthy (officeLogo d) && negb (office_logo_loads e (officeLogo d))
  then Err "Failed to load office logo" else
  match createQRCodeImage e (details d) 900 true with
  | Err m => Err m
  | Ok mainImg =>
      match createQRCodeImage e (license d) 150 false with
      | Err m => Err m
      | Ok licImg => Ok (expected_canvas d mainImg licImg)
      end
  end.
Proof.
  unfold createQRCanvas, run, compose.
  rewrite mainQRSize_eq.
  destruct (context_available e); [|reflexivity].
  unfold expected_canvas, branding_ops, office_block.
  destruct (truthy (officeName d)), (truthy (officeLogo d));
    try destruct (office_logo_loads e (officeLogo d));
    destruct (createQRCodeImage e (details d) 900 true);
    try destruct (createQRCodeImage e (license d) 150 false);
    reflexivity.
Qed.

(* ------------------------------------------------------------------ *)
(** ** Exporters *)

(** [canvas.toDataURL("image/png")] *)
Definition canvas_image (c : canvas) : image :=
  Rendered (cv_width c) (cv_height c) (cv_ops c).

(** An image placed on a document page by [pdf.addImage]. *)
Record placed := { pl_img : image; pl_x : Q; pl_y : Q; pl_w : Q; pl_h : Q }.

(** A downloaded file; its name is [`رمز-QR-العقاري-${stamp}.${ext}`]. *)
Inductive download :=
| PngFile (stamp : Z) (data : image)
| PdfFile (stamp : Z) (pages : list (list placed)).

(** The component state the exporters touch, plus the user-visible and
    logged effects they produce. *)
Record ui := {
  isDownloading : string;
  alerts : list string;
  console_errors : list string;
  downloads : list download
}.

Definition set_isDownloading (u : ui) (s : string) : ui :=
  {| isDownloading := s; alerts := alerts u; console_errors := console_errors u;
     downloads := downloads u |}.
Definition alert (u : ui) (m : string) : ui :=
  {| isDownloading := isDownloading u; alerts := alerts u ++ [m];
     console_errors := console_errors u; downloads := downloads u |}.
Definition console_error (u : ui) (m : string) : ui :=
  {| isDownloading := isDownloading u; alerts := alerts u;
     console_errors := console_errors u ++ [m]; downloads := downloads u |}.
Definition save (u : ui) (f : download) : ui :=
  {| isDownloading := isDownloading u; alerts := alerts u;
     console_errors := console_errors u; downloads := downloads u ++ [f] |}.

Definition no_data_msg : string := "لا توجد بيانات متاحة للتحميل".
Definition image_error_msg : string := "حدث خطأ أثناء حفظ الصورة".
Definition pdf_error_msg : string := "حدث خطأ أثناء حفظ PDF".

Definition downloadAsImage (e : env) (qrData : option QRData) (u : ui) : ui :=
  match qrData with
  | None => alert u no_data_msg
  | Some _ =>
      let u := set_isDownloading u "image" in
      let u :=
        match createQRCanvas e qrData with
        | Ok c => save u (PngFile (now e) (canvas_image c))
        | Err m => alert (console_error u m) image_error_msg
        end in
      (* finally *)
      set_isDownloading u ""
  end.

(** jsPDF's page in mm for [format: "a4"]: the a4 format is
    [595.28 x 841.89] pt and the mm scale factor is [72 / 25.4]. *)
Definition jspdf_mm_k : Q := ndiv 72 25.4.
Definition a4_width_mm : Q := ndiv 595.28 jspdf_mm_k.
Definition a4_height_mm : Q := ndiv 841.89 jspdf_mm_k.

(** The scaling and centering of [downloadAsPDF]. *)
Definition pdf_placement (img : image) (pdfWidth pdfHeight imgWidth imgHeight : Q)
  : placed :=
  let ratio := nmul (nmin (ndiv pdfWidth imgWidth) (ndiv pdfHeight imgHeight)) 0.95 in
  let width := nmul imgWidth ratio in
  let height := nmul imgHeight ratio in
  let x := ndiv (nsub pdfWidth width) 2 in
  let y := ndiv (nsub pdfHeight height) 2 in
  {| pl_img := img; pl_x := x; pl_y := y; pl_w := width; pl_h := height |}.

Definition downloadAsPDF (e : env) (qrData : option QRData) (u : ui) : ui :=
  match qrData with
  | None => alert u no_data_msg
  | Some _ =>
      let u := set_isDownloading u "pdf" in
      let u :=
        match createQRCanvas e qrData with
        | Ok c =>
            let imgData := canvas_image c in
            let pdfWidth := a4_width_mm in
            let pdfHeight := a4_height_mm in
            (* a fresh jsPDF document has one page; addImage draws on it *)
            let page := [pdf_placement imgData pdfWidth pdfHeight
                           (cv_width c) (cv_height c)] in
            save u (PdfFile (now e) [page])
        | Err m => alert (console_error u m) pdf_error_msg
        end in
      set_isDownloading u ""
  end.

(* ------------------------------------------------------------------ *)
(** ** QRContent's render gate *)

Inductive view := VLoading | VIncomplete | VReady (d : QRData).

(** [!(!qrData?.details || !qrData?.license)] *)
Definition renderable (qrData : option QRData) : bool :=
  match qrData with
  | Some d => truthy (details d) && truthy (license d)
  | None => false
  end.

Definition QRContent_view (isLoading : bool) (qrData : option QRData) : view :=
  if isLoading then VLoading else
  match qrData with
  | Some d => if renderable qrData then VReady d else VIncomplete
  | None => VIncomplete
  end.

(** The buttons a view offers that are enabled. *)
Inductive action := ClickDownloadImage | ClickDownloadPDF | ClickBack | ClickHome.

Definition enabled_actions (v : view) (busy : string) : list action :=
  match v with
  | VLoading => []
  | VIncomplete => [ClickBack]
  | VReady _ =>
      (if truthy busy then [] else [ClickDownloadImage; ClickDownloadPDF])
        ++ [ClickHome]
  end.

(** Whether handling an action runs [createQRCanvas]. *)
Definition composes (a : action) : bool :=
  match a with
  | ClickDownloadImage | ClickDownloadPDF => true
  | ClickBack | ClickHome => false
  end.

(* ------------------------------------------------------------------ *)
(** ** Extent of a drawing operation *)

(** The box [(x, y, w, h)] an image or rectangle covers. A text has no
    box here: its extent depends on the font's metrics and on the text
    itself (the office name is user input). *)
Definition op_box (o : op) : option (Q * Q * Q * Q) :=
  match o with
  | FillRect _ x y w h => Some (x, y, w, h)
  | FillRoundRect _ x y w h _ => Some (x, y, w, h)
  | DrawImage _ x y w h => Some (x, y, w, h)
  | FillText _ _ _ _ _ _ _ => None
  end.

(** The boxes of the images and rectangles of a drawing, in order. *)
Definition shape_boxes (ops : list op) : list (Q * Q * Q * Q) :=
  flat_map (fun o => match op_box o with Some b => [b] | None => [] end) ops.

Definition fits_horizontally (W : Q) (b : Q * Q * Q * Q) : bool :=
  let '(x, _, w, _) := b in Qle_bool 0 x && Qle_bool (x + w) W.
Definition fits_vertically (H : Q) (b : Q * Q * Q * Q) : bool :=
  let '(_, y, _, h) := b in Qle_bool 0 y && Qle_bool (y + h) H.

(* ------------------------------------------------------------------ *)
(** ** The input form (src/app/page.tsx) and the hand-over to the QR page *)

(** [String(n)] for a non-negative integer: its decimal digits. *)
Fixpoint digits_aux (fuel : nat) (n : N) (acc : string) : string :=
  match fuel with
  | O => acc
  | S f =>
      let acc := String (Ascii.ascii_of_N (48 + N.modulo n 10)) acc in
      if (n <? 10)%N then acc else digits_aux f (N.div n 10) acc
  end.
Definition N_to_string (n : N) : string := digits_aux (S (N.size_nat n)) n "".

(** A file chosen in the logo input. *)
Record file := {
  file_size : Z;
  (* what [FileReader.readAsDataURL] hands to [onload]; [None] when
     [onload] never fires (the code installs no [onerror]) *)
  file_data_url : option string;
  (* [URL.createObjectURL(file)] *)
  file_object_url : string
}.

(** A localStorage value: the JSON text of a record written by
    [handleGenerate] ([JSON.stringify] of four string fields, which
    [JSON.parse] gives back field for field), or a text [JSON.parse]
    rejects. *)
Inductive stored := JsonRecord (d : QRData) | Unparsable (s : string).

Definition storage := list (string * stored).

(** [localStorage.getItem] / [localStorage.setItem] *)
Fixpoint getItem (st : storage) (k : string) : option stored :=
  match st with
  | [] => None
  | (k', v) :: st' => if String.eqb k k' then Some v else getItem st' k
  end.
Definition setItem (st : storage) (k : string) (v : stored) : storage :=
  (k, v) :: filter (fun p => negb (String.eqb k (fst p))) st.

(** A navigation target: path and query parameters. [URLSearchParams]
    percent-encodes a value and [searchParams.get] decodes it back; the
    keys written here ([qrData_] and digits) need no escaping. *)
Record route := { rt_path : string; rt_params : list (string * string) }.

Fixpoint param (ps : list (string * string)) (k : string) : option string :=
  match ps with
  | [] => None
  | (k', v) :: ps' => if String.eqb k k' then Some v else param ps' k
  end.

(** Outcomes of the browser calls the form makes. *)
Record browser := {
  url_parses : string -> bool;   (* [new URL(url)] does not throw *)
  set_item_ok : bool;            (* [localStorage.setItem] does not throw *)
  date_now : N                   (* [Date.now()] *)
}.

(** The form's state and the effects it has produced. *)
Record home := {
  h_propertyDetails : string;
  h_propertyLicense : string;
  h_officeName : string;
  h_officeLogo : option file;
  h_logoPreview : string;
  h_errors : string * string;     (* [errors.details], [errors.license] *)
  h_isGenerating : bool;
  h_storage : storage;
  h_pushed : option route;        (* the [router.push] target, if any *)
  h_alerts : list string;
  h_console : list string
}.

Definition h_set_logo (s : home) (f : option file) (preview : string) : home :=
  {| h_propertyDetails := h_propertyDetails s; h_propertyLicense := h_propertyLicense s;
     h_officeName := h_officeName s; h_officeLogo := f; h_logoPreview := preview;
     h_errors := h_errors s; h_isGenerating := h_isGenerating s;
     h_storage := h_storage s; h_pushed := h_pushed s; h_alerts := h_alerts s;
     h_console := h_console s |}.
Definition h_set_errors (s : home) (errs : string * string) : home :=
  {| h_propertyDetails := h_propertyDetails s; h_propertyLicense := h_propertyLicense s;
     h_officeName := h_officeName s; h_officeLogo := h_officeLogo s;
     h_logoPreview := h_logoPreview s; h_errors := errs;
     h_isGenerating := h_isGenerating s; h_storage := h_storage s;
     h_pushed := h_pushed s; h_alerts := h_alerts s; h_console := h_console s |}.
Definition h_set_generating (s : home) (g : bool) : home :=
  {| h_propertyDetails := h_propertyDetails s; h_propertyLicense := h_propertyLicense s;
     h_officeName := h_officeName s; h_officeLogo := h_officeLogo s;
     h_logoPreview := h_logoPreview s; h_errors := h_errors s;
     h_isGenerating := g; h_storage := h_storage s;
     h_pushed := h_pushed s; h_alerts := h_alerts s; h_console := h_console s |}.
Definition h_effects (s : home) (st : storage) (pushed : option route)
    (al cons : list string) : home :=
  {| h_propertyDetails := h_propertyDetails s; h_propertyLicense := h_propertyLicense s;
     h_officeName := h_officeName s; h_officeLogo := h_officeLogo s;
     h_logoPreview := h_logoPreview s; h_errors := h_errors s;
     h_isGenerating := h_isGenerating s; h_storage := st;
     h_pushed := pushed; h_alerts := al; h_console := cons |}.

Definition logo_too_big_msg : string := "حجم الصورة يجب أن يكون أقل من 2MB".
Definition details_required_msg : string := "يرجى إدخال رابط تفاصيل العقار".
Definition license_required_msg : string := "يرجى إدخال رابط الرخصة العقارية".
Definition invalid_url_msg : string := "يرجى إدخال رابط صحيح".
Definition generate_error_msg : string := "حدث خطأ أثناء إنشاء الرموز".

(** [validateUrl] *)
Definition validateUrl (b : browser) (url : string) : bool := url_parses b url.

(** [handleLogoUpload] with [e.target.files?.[0]]. *)
Definition handleLogoUpload (picked : option file) (s : home) : home :=
  match picked with
  | None => s
  | Some f =>
      if (file_size f >? 2 * 1024 * 1024)%Z
      then h_effects s (h_storage s) (h_pushed s) (h_alerts s ++ [logo_too_big_msg])
             (h_console s)
      else h_set_logo s (Some f) (file_object_url f)
  end.

(** The two validations of [handleGenerate]. *)
Definition details_error (b : browser) (v : string) : string :=
  if negb (truthy v) then details_required_msg
  else if negb (validateUrl b v) then invalid_url_msg
  else "".
Definition license_error (b : browser) (v : string) : string :=
  if negb (truthy v) then license_required_msg
  else if negb (validateUrl b v) then invalid_url_msg
  else "".

(** [`qrData_${Date.now()}`] *)
Definition storageKey (b : browser) : string := "qrData_" ++ N_to_string (date_now b).

(** The tail of the [try] block: store, then navigate; its [catch]. *)
Definition persist (b : browser) (qrData : QRData) (s : home) : home :=
  let key := storageKey b in
  if set_item_ok b then
    h_effects s (setItem (h_storage s) key (JsonRecord qrData))
      (Some {| rt_path := "/qr"; rt_params := [("dataKey", key)] |})
      (h_alerts s) (h_console s)
  else
    h_set_generating
      (h_effects s (h_storage s) (h_pushed s) (h_alerts s ++ [generate_error_msg])
         (h_console s ++ ["Error generating QR codes:"]))
      false.

Definition handleGenerate (b : browser) (s : home) : home :=
  let newErrors := (details_error b (h_propertyDetails s),
                    license_error b (h_propertyLicense s)) in
  let s := h_set_errors s newErrors in
  if negb (truthy (fst newErrors)) && negb (truthy (snd newErrors)) then
    let s := h_set_generating s true in
    let qrData := {| details := h_propertyDetails s;
                     license := h_propertyLicense s;
                     officeName := if truthy (h_officeName s) then h_officeName s else "";
                     officeLogo := "" |} in
    match h_officeLogo s with
    | Some f =>
        match file_data_url f with
        | Some logoBase64 =>
            persist b {| details := details qrData; license := license qrData;
                         officeName := officeName qrData;
                         officeLogo := logoBase64 |} s
        | None => s   (* the awaited FileReader promise never settles *)
        end
    | None => persist b qrData s
    end
  else s.

(** [disabled={!propertyDetails || !propertyLicense || isGenerating}] negated. *)
Definition generate_enabled (s : home) : bool :=
  truthy (h_propertyDetails s) && truthy (h_propertyLicense s)
  && negb (h_isGenerating s).

(** The QR page's loading effect: [(isLoading, qrData)] once it has run,
    for the query parameters of the page and the storage. *)
Definition load_effect (st : storage) (params : list (string * string))
  : bool * option QRData :=
  let dataKey := match param params "dataKey" with Some k => k | None => "" end in
  if truthy dataKey then
    match getItem st dataKey with
    | Some (JsonRecord d) => (false, Some d)
    | Some (Unparsable txt) => (false, None)   (* JSON.parse throws; caught *)
    | None => (false, None)
    end
  else (false, None).

(* ------------------------------------------------------------------ *)
(** ** Concrete inputs *)

(** Every asynchronous step resolves. *)
Definition env_all_ok : env := {|
  qr_encode := fun _ _ => None;
  qr_img_loads := true;
  final_img_loads := true;
  app_logo_loads := true;
  office_logo_loads := fun _ => true;
  context_available := true;
  now := 1760000000000%Z
|}.

(** The record of the spec's testable properties, no branding. *)
Definition rec_plain : QRData := {|
  details := "https://example.com/a";
  license := "https://example.com/b";
  officeName := "";
  officeLogo := ""
|}.

(** The same record with a name and an embedded logo. *)
Definition rec_branded : QRData := {|
  details := "https://example.com/a";
  license := "https://example.com/b";
  officeName := "Office";
  officeLogo := "data:image/png;base64,iVBORw0KGgo="
|}.

(** A browser whose [new URL] accepts the https URLs used here and whose
    [localStorage.setItem] succeeds. *)
Definition browser_ok : browser := {|
  url_parses := fun u => String.prefix "https://" u;
  set_item_ok := true;
  date_now := 1760000000000%N
|}.

(** The same browser one millisecond later. *)
Definition browser_later : browser := {|
  url_parses := url_parses browser_ok;
  set_item_ok := true;
  date_now := 1760000000001%N
|}.

(** A browser whose storage quota is exhausted: [setItem] throws. *)
Definition browser_full : browser := {|
  url_parses := url_parses browser_ok;
  set_item_ok := false;
  date_now := 1760000000000%N
|}.

(** A small PNG logo, and one whose [FileReader] never reports back. *)
Definition logo_png : file := {|
  file_size := 1024%Z;
  file_data_url := Some "data:image/png;base64,iVBORw0KGgo=";
  file_object_url := "blob:http://localhost:3000/logo"
|}.
Definition logo_unread : file := {|
  file_size := 1024%Z;
  file_data_url := None;
  file_object_url := "blob:http://localhost:3000/logo"
|}.

(** The form filled in with both URLs, an office name and a logo. *)
Definition home_filled (logo : file) : home := {|
  h_propertyDetails := "https://example.com/a";
  h_propertyLicense := "https://example.com/b";
  h_officeName := "Office";
  h_officeLogo := Some logo;
  h_logoPreview := file_object_url logo;
  h_errors := ("", "");
  h_isGenerating := false;
  h_storage := [];
  h_pushed := None;
  h_alerts := [];
  h_console := []
|}.

Definition image_of (r : result image) : image :=
  match r with Ok i => i | Err _ => AppLogo end.

(** The details QR of [rec_plain], badge included. *)
Definition details_symbol : image :=
  image_of (createQRCodeImage env_all_ok "https://example.com/a" 900 true).

(* ------------------------------------------------------------------ *)
(** ** Helper lemmas *)

Lemma Qred_eq (q : Q) : Qred q == q.
Proof. apply Qred_correct. Qed.

(** Finds an element in a concrete list. *)
Ltac find_in := repeat (first [left; reflexivity | right]).

(** Linear arithmetic over [Q] once divisions by constants and decimal
    literals are written as fractions. *)
Ltac qlra :=
  unfold Qdiv in *; cbn [Qinv Qnum Qden] in *;
  change 0.95 with (95#100) in *; change 0.2 with (2#10) in *;
  change 0.08 with (8#100) in *; lra.

(** Closes an equation of rationals built with the JS arithmetic above. *)
Ltac qsolve :=
  unfold nadd, nsub, nmul, ndiv, nmin; repeat rewrite Qred_eq;
  first [reflexivity | field].

(** The license QR of the export path: the raw symbol only. *)
Lemma createQRCodeImage_nologo (e : env) (v : string) (s : Q) (img : image) :
  createQRCodeImage e v s false = Ok img ->
  img = Rendered s s [DrawImage (QRRaw v (qr_options_of s)) 0 0 s s].
Proof.
  unfold createQRCodeImage.
  destruct (qr_encode e v (qr_options_of s)); [discriminate|].
  destruct (qr_img_loads e); [|discriminate].
  destruct (final_img_loads e); [|discriminate].
  intro H; injection H as <-; reflexivity.
Qed.

Lemma createQRCodeImage_logo (e : env) (v : string) (s : Q) (img : image) :
  createQRCodeImage e v s true = Ok img ->
  img = Rendered s s (DrawImage (QRRaw v (qr_options_of s)) 0 0 s s
                      :: logo_overlay (app_logo_loads e) s).
Proof.
  unfold createQRCodeImage.
  destruct (qr_encode e v (qr_options_of s)); [discriminate|].
  destruct (qr_img_loads e); [|discriminate].
  destruct (final_img_loads e); [|discriminate].
  intro H; injection H as <-; reflexivity.
Qed.

Lemma createQRCanvas_Ok (e : env) (d : QRData) (c : canvas) :
  createQRCanvas e (Some d) = Ok c ->
  exists mainImg licImg,
    createQRCodeImage e (details d) 900 true = Ok mainImg /\
    createQRCodeImage e (license d) 150 false = Ok licImg /\
    c = expected_canvas d mainImg licImg.
Proof.
  rewrite createQRCanvas_eq.
  destruct (negb (context_available e)); [discriminate|].
  destruct (truthy (officeLogo d) && negb (office_logo_loads e (officeLogo d)));
    [discriminate|].
  destruct (createQRCodeImage e (details d) 900 true) as [mi|]; [|discriminate].
  destruct (createQRCodeImage e (license d) 150 false) as [li|]; [|discriminate].
  intro H; injection H as <-; eauto.
Qed.

(* ------------------------------------------------------------------ *)
(** ** Layout of the composed canvas *)

(** C3: the composed canvas is 1200 x 1600; the details QR is
    floor(0.75 * 1200) = 900 wide and horizontally centered; the license
    panel is a 200-high rectangle inset by 50 on both sides, drawn below
    the details caption; the license QR inside it is 150 wide and is the
    raw QR symbol with no logo badge. *)
Theorem C3_canvas_geometry (e : env) (d : QRData) (c : canvas)
    (Hc : createQRCanvas e (Some d) = Ok c) :
  cv_width c = 1200 /\ cv_height c = 1600 /\
  nfloor (nmul 1200 0.75) = 900 /\
  exists pre mainImg Y capY panelY,
    cv_ops c =
      (pre ++ [DrawImage mainImg 150 Y 900 900;
              FillText "#000000" bold32 "center" "middle" details_caption 600 capY;
              FillRect "#f8f9fa" 50 panelY 1100 200;
              DrawImage (Rendered 150 150
                           [DrawImage (QRRaw (license d) (qr_options_of 150))
                              0 0 150 150])
                150 (nadd panelY 25) 150 150;
              FillText "#000000" bold28 "right" "middle" license_caption 1050
                (nadd panelY 100)])%list /\
    150 + 900 + 150 == cv_width c /\
    50 + 1100 + 50 == cv_width c /\
    capY < panelY.
Proof.
  apply createQRCanvas_Ok in Hc as (mi & li & _ & Hli & ->).
  apply createQRCodeImage_nologo in Hli as ->.
  split; [reflexivity|]. split; [reflexivity|]. split; [reflexivity|].
  set (Y := details_qr_y (truthy (officeName d)) (truthy (officeLogo d))).
  exists (FillRect "#ffffff" 0 0 1200 1600 :: branding_ops d), mi, Y,
    (nadd Y 950), (nadd Y 1060).
  unfold Y, expected_canvas, branding_ops;
    destruct (truthy (officeName d)), (truthy (officeLogo d));
    repeat split; vm_compute; reflexivity.
Qed.

(* ------------------------------------------------------------------ *)
(** ** Logo compositor *)

(** C4: with include-logo true, the image of edge [S] is the QR symbol
    overlaid with a centered white rounded square badge of side [S/5] and
    corner radius [0.2 * side], and the logo is drawn centered in an inner
    square of side [side - 2 * (0.08 * side)] (when the logo asset loads;
    otherwise nothing is drawn over the badge). *)
Theorem C4_logo_badge (e : env) (value : string) (S : Q) (img : image)
    (Himg : createQRCodeImage e value S true = Ok img) :
  exists side bx by_ r rest,
    img = Rendered S S (DrawImage (QRRaw value (qr_options_of S)) 0 0 S S
                        :: FillRoundRect "#FFFFFF" bx by_ side side r :: rest) /\
    side == S / 5 /\
    bx + side / 2 == S / 2 /\ by_ + side / 2 == S / 2 /\
    r == 0.2 * side /\
    (app_logo_loads e = true ->
       exists lx ly a,
         rest = [DrawImage AppLogo lx ly a a] /\
         a == side - 2 * (0.08 * side) /\
         lx + a / 2 == S / 2 /\ ly + a / 2 == S / 2) /\
    (app_logo_loads e = false -> rest = []).
Proof.
  apply createQRCodeImage_logo in Himg as ->.
  unfold logo_overlay.
  eexists _, _, _, _, _; split; [reflexivity|].
  split; [qsolve|]. split; [qsolve|]. split; [qsolve|].
  split; [qsolve|].
  split; intro Hl; rewrite Hl; [|reflexivity].
  eexists _, _, _; split; [reflexivity|].
  split; [qsolve|]. split; qsolve.
Qed.

(** C7: when the application logo fails to load, the image still resolves
    (given the QR symbol was encoded and decoded), with the white rounded
    badge drawn and no logo drawn over it. *)
Theorem C7_app_logo_failure (e : env) (value : string) (S : Q)
    (Henc : qr_encode e value (qr_options_of S) = None)
    (Hqr : qr_img_loads e = true)
    (Hfin : final_img_loads e = true)
    (Hlogo : app_logo_loads e = false) :
  exists bx by_ side r,
    createQRCodeImage e value S true =
      Ok (Rendered S S [DrawImage (QRRaw value (qr_options_of S)) 0 0 S S;
                        FillRoundRect "#FFFFFF" bx by_ side side r]) /\
    side == S / 5 /\ r == 0.2 * side.
Proof.
  unfold createQRCodeImage. rewrite Henc, Hqr, Hfin, Hlogo.
  unfold logo_overlay.
  eexists _, _, _, _; split; [reflexivity|].
  split; qsolve.
Qed.

(* ------------------------------------------------------------------ *)
(** ** Exporters *)

(** C5: the document exporter puts the composed bitmap, once, on the single
    page of a fresh A4 document, scaled by
    [ratio = min(pageWidth / w, pageHeight / h) * 0.95] and centered at
    [((pageWidth - w * ratio) / 2, (pageHeight - h * ratio) / 2)] with size
    [(w * ratio) x (h * ratio)]. *)
Theorem C5_pdf_scaling (e : env) (d : QRData) (u : ui) (c : canvas)
    (Hc : createQRCanvas e (Some d) = Ok c) :
  downloadAsPDF e (Some d) u =
    {| isDownloading := ""; alerts := alerts u;
       console_errors := console_errors u;
       downloads := downloads u ++
         [PdfFile (now e)
            [[pdf_placement (canvas_image c) a4_width_mm a4_height_mm
                (cv_width c) (cv_height c)]]] |} /\
  forall (img : image) (pageWidth pageHeight w h : Q),
    let p := pdf_placement img pageWidth pageHeight w h in
    let ratio := Qmin (pageWidth / w) (pageHeight / h) * 0.95 in
    pl_img p = img /\
    pl_w p == w * ratio /\ pl_h p == h * ratio /\
    pl_x p == (pageWidth - w * ratio) / 2 /\
    pl_y p == (pageHeight - h * ratio) / 2.
Proof.
  split.
  - unfold downloadAsPDF. rewrite Hc. reflexivity.
  - intros img pw ph w h p ratio; subst p ratio.
    unfold pdf_placement; cbn [pl_img pl_w pl_h pl_x pl_y].
    split; [reflexivity|].
    repeat split; qsolve.
Qed.

(** C6: a QR encoding failure (details or license payload) makes the
    composition reject, with the encoder's own error when every earlier
    step succeeded; each exporter then logs it, shows its error alert,
    saves no file and clears its busy flag, so both download buttons are
    enabled again. *)
Theorem C6_encoding_errors_surface (e : env) (d : QRData) (u : ui) (err : string)
    (Henc : qr_encode e (details d) (qr_options_of 900) = Some err \/
            qr_encode e (license d) (qr_options_of 150) = Some err) :
  exists m,
    createQRCanvas e (Some d) = Err m /\
    (context_available e = true ->
     (truthy (officeLogo d) = true -> office_logo_loads e (officeLogo d) = true) ->
     (qr_encode e (details d) (qr_options_of 900) = Some err \/
      exists mainImg, createQRCodeImage e (details d) 900 true = Ok mainImg) ->
     m = err) /\
    downloadAsImage e (Some d) u =
      {| isDownloading := ""; alerts := alerts u ++ [image_error_msg];
         console_errors := console_errors u ++ [m]; downloads := downloads u |} /\
    downloadAsPDF e (Some d) u =
      {| isDownloading := ""; alerts := alerts u ++ [pdf_error_msg];
         console_errors := console_errors u ++ [m]; downloads := downloads u |} /\
    incl [ClickDownloadImage; ClickDownloadPDF]
      (enabled_actions (VReady d) (isDownloading (downloadAsImage e (Some d) u))) /\
    incl [ClickDownloadImage; ClickDownloadPDF]
      (enabled_actions (VReady d) (isDownloading (downloadAsPDF e (Some d) u))).
Proof.
  assert (Hcomp : exists m, createQRCanvas e (Some d) = Err m /\
    (context_available e = true ->
     (truthy (officeLogo d) = true -> office_logo_loads e (officeLogo d) = true) ->
     (qr_encode e (details d) (qr_options_of 900) = Some err \/
      exists mainImg, createQRCodeImage e (details d) 900 true = Ok mainImg) ->
     m = err)).
  { rewrite createQRCanvas_eq.
    destruct (context_available e) eqn:Hctx; cbn [negb].
    2: { eexists; split; [reflexivity|]. intro H; discriminate. }
    destruct (truthy (officeLogo d) && negb (office_logo_loads e (officeLogo d)))
      eqn:Hlogo.
    { eexists; split; [reflexivity|]. intros _ Ho _.
      apply andb_true_iff in Hlogo as [H1 H2].
      rewrite (Ho H1) in H2; discriminate. }
    destruct (createQRCodeImage e (details d) 900 true) as [mi|m] eqn:Hm.
    - assert (Hd : qr_encode e (details d) (qr_options_of 900) = None).
      { unfold createQRCodeImage in Hm.
        destruct (qr_encode e (details d) (qr_options_of 900)); [discriminate|auto]. }
      assert (Hl : qr_encode e (license d) (qr_options_of 150) = Some err)
        by (destruct Henc as [H|H]; [congruence|exact H]).
      unfold createQRCodeImage at 1. rewrite Hl.
      eexists; split; [reflexivity|]. auto.
    - eexists; split; [reflexivity|]. intros _ _ [H|[mi H]]; [|congruence].
      unfold createQRCodeImage in Hm. rewrite H in Hm. congruence. }
  destruct Hcomp as (m & Hm & Hprec).
  exists m. split; [exact Hm|]. split; [exact Hprec|].
  unfold downloadAsImage, downloadAsPDF. rewrite Hm.
  repeat split; intros a Ha; compute in Ha |- *; tauto.
Qed.

(* ------------------------------------------------------------------ *)
(** ** Render gate *)

(** C8: a record missing its details or license URL (or no record at all)
    is not renderable: once loaded the page shows the incomplete-data view,
    and no view it can be in offers an action that runs the composition. *)
Theorem C8_incomplete_records_not_composed (isLoading : bool)
    (qrData : option QRData) (busy : string)
    (Hmissing : match qrData with
                | None => True
                | Some d => details d = "" \/ license d = ""
                end) :
  renderable qrData = false /\
  (isLoading = false -> QRContent_view isLoading qrData = VIncomplete) /\
  (forall a, In a (enabled_actions (QRContent_view isLoading qrData) busy) ->
             composes a = false).
Proof.
  assert (Hr : renderable qrData = false).
  { destruct qrData as [d|]; [|reflexivity]; cbn.
    destruct Hmissing as [-> | ->]; [reflexivity|].
    apply andb_false_r. }
  assert (Hv : isLoading = false -> QRContent_view isLoading qrData = VIncomplete).
  { intros ->; unfold QRContent_view. rewrite Hr.
    destruct qrData; reflexivity. }
  split; [exact Hr|]. split; [exact Hv|].
  intros a Ha.
  destruct isLoading.
  - destruct Ha.
  - rewrite (Hv eq_refl) in Ha. destruct Ha as [<-|[]]; reflexivity.
Qed.

(* ------------------------------------------------------------------ *)
(** ** Layout as a function of the branding flags *)

(** Where and how large a drawing operation is, its content erased. *)
Inductive geom :=
| GRect (x y w h : Q)
| GRound (x y w h r : Q)
| GImage (x y w h : Q)
| GText (x y : Q).

Definition geom_of (o : op) : geom :=
  match o with
  | FillRect _ x y w h => GRect x y w h
  | FillRoundRect _ x y w h r => GRound x y w h r
  | DrawImage _ x y w h => GImage x y w h
  | FillText _ _ _ _ _ x y => GText x y
  end.

(** The positions of everything drawn on the canvas, from the two flags. *)
Definition layout_of_flags (hasName hasLogo : bool) : list geom :=
  let Y := details_qr_y hasName hasLogo in
  [GRect 0 0 1200 1600]
  ++ (if hasLogo then [GImage 540 100 120 120] else [])
  ++ (if hasName then
        let y := if hasLogo then 250 else 100 in [GText 600 y; GText 600 (nadd y 40)]
      else [])
  ++ [GImage 150 Y 900 900; GText 600 (nadd Y 950); GRect 50 (nadd Y 1060) 1100 200;
      GImage 150 (nadd Y 1085) 150 150; GText 1050 (nadd Y 1160)].

Lemma geom_expected_canvas (d : QRData) (mi li : image) :
  map geom_of (cv_ops (expected_canvas d mi li)) =
  layout_of_flags (truthy (officeName d)) (truthy (officeLogo d)).
Proof.
  unfold expected_canvas, branding_ops, layout_of_flags.
  destruct (truthy (officeName d)), (truthy (officeLogo d)); reflexivity.
Qed.

(** C9: two successful compositions of records with the same
    office-name-presence and office-logo-presence flags (in particular two
    compositions of the same record) give canvases of the same dimensions
    with every element at the same place, and that placement is
    [layout_of_flags] of the two flags. *)
Theorem C9_layout_deterministic (e1 e2 : env) (d1 d2 : QRData) (c1 c2 : canvas)
    (H1 : createQRCanvas e1 (Some d1) = Ok c1)
    (H2 : createQRCanvas e2 (Some d2) = Ok c2)
    (Hname : truthy (officeName d1) = truthy (officeName d2))
    (Hlogo : truthy (officeLogo d1) = truthy (officeLogo d2)) :
  cv_width c1 = cv_width c2 /\ cv_height c1 = cv_height c2 /\
  map geom_of (cv_ops c1) = map geom_of (cv_ops c2) /\
  map geom_of (cv_ops c1) =
    layout_of_flags (truthy (officeName d1)) (truthy (officeLogo d1)).
Proof.
  apply createQRCanvas_Ok in H1 as (mi1 & li1 & _ & _ & ->).
  apply createQRCanvas_Ok in H2 as (mi2 & li2 & _ & _ & ->).
  rewrite !geom_expected_canvas, Hname, Hlogo.
  repeat split; reflexivity.
Qed.

Definition is_office_logo (o : op) : bool :=
  match o with
  | DrawImage (OfficeLogo _) _ _ _ _ => true
  | _ => false
  end.

Definition is_text (t : string) (o : op) : bool :=
  match o with
  | FillText _ _ _ _ t' _ _ => String.eqb t t'
  | _ => false
  end.

(** C10: on a successful composition the office logo is drawn (120 x 120,
    centered, at y 100) iff [officeLogo] is non-empty, the office caption
    and the office name are drawn iff [officeName] is non-empty (at the
    cursor and 40 below it); the details QR then sits at
    [100 + (120 + 30 if logo) + (40 + 80 if name)], i.e. 100, 250, 220 or
    370, and that offset strictly grows with every added branding element. *)
Theorem C10_branding_offsets (e : env) (d : QRData) (c : canvas)
    (Hc : createQRCanvas e (Some d) = Ok c) :
  let hasName := truthy (officeName d) in
  let hasLogo := truthy (officeLogo d) in
  existsb is_office_logo (cv_ops c) = hasLogo /\
  (hasLogo = true -> In (DrawImage (OfficeLogo (officeLogo d)) 540 100 120 120) (cv_ops c)) /\
  existsb (is_text office_caption) (cv_ops c) = hasName /\
  (hasName = true ->
     let y := if hasLogo then 250 else 100 in
     In (FillText "#000000" bold32 "center" "middle" office_caption 600 y) (cv_ops c) /\
     In (FillText "#000000" normal28 "center" "middle" (officeName d) 600 (nadd y 40))
       (cv_ops c)) /\
  (exists mainImg,
     In (DrawImage mainImg 150 (details_qr_y hasName hasLogo) 900 900) (cv_ops c)) /\
  details_qr_y hasName hasLogo ==
    100 + (if hasLogo then 120 + 30 else 0) + (if hasName then 40 + 80 else 0) /\
  details_qr_y false false = 100 /\ details_qr_y false true = 250 /\
  details_qr_y true false = 220 /\ details_qr_y true true = 370 /\
  (forall n1 l1 n2 l2 : bool,
     implb n1 n2 = true -> implb l1 l2 = true -> (n1, l1) <> (n2, l2) ->
     details_qr_y n1 l1 < details_qr_y n2 l2).
Proof.
  intros hasName hasLogo.
  apply createQRCanvas_Ok in Hc as (mi & li & Hmi & Hli & ->).
  apply createQRCodeImage_logo in Hmi as ->.
  apply createQRCodeImage_nologo in Hli as ->.
  assert (Hcap : String.eqb office_caption details_caption = false /\
                 String.eqb office_caption license_caption = false)
    by (split; reflexivity).
  destruct Hcap as [Hc1 Hc2].
  unfold expected_canvas, branding_ops; subst hasName hasLogo.
  split; [|split; [|split; [|split; [|split; [|split]]]]].
  - destruct (truthy (officeName d)), (truthy (officeLogo d)); reflexivity.
  - destruct (truthy (officeName d)), (truthy (officeLogo d)); intro H;
      try discriminate; cbn; find_in.
  - destruct (truthy (officeName d)), (truthy (officeLogo d));
      cbn [existsb is_text orb app cv_ops]; rewrite ?Hc1, ?Hc2; cbn;
      rewrite ?String.eqb_refl; reflexivity.
  - destruct (truthy (officeName d)), (truthy (officeLogo d)); intro H;
      try discriminate; cbn; split; find_in.
  - eexists.
    destruct (truthy (officeName d)), (truthy (officeLogo d)); cbn; find_in.
  - destruct (truthy (officeName d)), (truthy (officeLogo d)); reflexivity.
  - repeat split; try reflexivity.
    intros [|] [|] [|] [|]; cbn; intros; try discriminate;
      try (exfalso; auto; fail); reflexivity.
Qed.

(* ------------------------------------------------------------------ *)
(** ** Office logo that cannot be decoded *)

(** The branded record whose logo payload is not a decodable image. *)
Definition rec_bad_logo : QRData := {|
  details := "https://example.com/a";
  license := "https://example.com/b";
  officeName := "Office";
  officeLogo := "data:image/png;base64,@@not-an-image@@"
|}.

(** The branded record without its logo. *)
Definition rec_no_logo : QRData := {|
  details := "https://example.com/a";
  license := "https://example.com/b";
  officeName := "Office";
  officeLogo := ""
|}.

(** Every step resolves except the decoding of that office logo. *)
Definition env_bad_logo : env := {|
  qr_encode := fun _ _ => None;
  qr_img_loads := true;
  final_img_loads := true;
  app_logo_loads := true;
  office_logo_loads := fun src =>
    negb (String.eqb src "data:image/png;base64,@@not-an-image@@");
  context_available := true;
  now := 1760000000000%Z
|}.

(** C1 (the failing input): with a non-decodable office logo the
    composition rejects with "Failed to load office logo", while the same
    record without a logo composes; the image exporter then saves no file
    and shows its error alert, instead of saving the bitmap without the
    logo. *)
Lemma C1_counterexample :
  createQRCanvas env_bad_logo (Some rec_bad_logo) = Err "Failed to load office logo" /\
  (exists c, createQRCanvas env_bad_logo (Some rec_no_logo) = Ok c) /\
  downloads (downloadAsImage env_bad_logo (Some rec_bad_logo)
               {| isDownloading := ""; alerts := []; console_errors := [];
                  downloads := [] |}) = [] /\
  alerts (downloadAsImage env_bad_logo (Some rec_bad_logo)
            {| isDownloading := ""; alerts := []; console_errors := [];
               downloads := [] |}) = [image_error_msg].
Proof.
  split; [vm_compute; reflexivity|].
  split; [eexists; vm_compute; reflexivity|].
  split; vm_compute; reflexivity.
Qed.

(** C1 (code bug): the claim, and the code's own degradation of a failed
    app logo and of the office logo in the preview, have composition carry
    on without a failed office logo. The code instead rejects: when
    [officeLogo] is non-empty and fails to load, the composition (once it
    has its 2D context) rejects with "Failed to load office logo" before
    any QR is encoded, and each exporter catches it, logs it, shows its
    error alert, saves no file and clears its busy flag. *)
Theorem C1_office_logo_failure_rejects (e : env) (d : QRData) (u : ui)
    (Hctx : context_available e = true)
    (Hlogo : truthy (officeLogo d) = true)
    (Hfail : office_logo_loads e (officeLogo d) = false) :
  createQRCanvas e (Some d) = Err "Failed to load office logo" /\
  downloadAsImage e (Some d) u =
    {| isDownloading := ""; alerts := alerts u ++ [image_error_msg];
       console_errors := console_errors u ++ ["Failed to load office logo"];
       downloads := downloads u |} /\
  downloadAsPDF e (Some d) u =
    {| isDownloading := ""; alerts := alerts u ++ [pdf_error_msg];
       console_errors := console_errors u ++ ["Failed to load office logo"];
       downloads := downloads u |}.
Proof.
  assert (H : createQRCanvas e (Some d) = Err "Failed to load office logo").
  { rewrite createQRCanvas_eq, Hctx, Hlogo, Hfail. reflexivity. }
  split; [exact H|].
  unfold downloadAsImage, downloadAsPDF. rewrite H. split; reflexivity.
Qed.

(* ------------------------------------------------------------------ *)
(** ** Error-correction level of the export path *)

(** C2: the export path's QR symbols are requested with margin 1,
    dark "#000000" and light "#FFFFFF", but with no
    [errorCorrectionLevel], which the qrcode library resolves to level M,
    not H; evaluated here on the details QR of the spec's example. *)
Theorem C2_export_qr_level_M :
  (forall size : Q, resolved_level (qr_options_of size) = ECM) /\
  match createQRCodeImage env_all_ok "https://example.com/a" 900 true with
  | Ok (Rendered _ _ (DrawImage (QRRaw _ o) _ _ _ _ :: _)) =>
      resolved_level o = ECM /\ resolved_level o <> ECH /\
      qo_margin o = 1 /\ qo_dark o = "#000000" /\ qo_light o = "#FFFFFF"
  | _ => False
  end.
Proof.
  split; [reflexivity|].
  vm_compute. repeat split; discriminate.
Qed.

(** With both branding elements the 200-high license panel, drawn from
    y = 1430, runs past the 1600-high canvas. *)
Lemma license_panel_overflows_when_fully_branded :
  exists c,
    createQRCanvas env_all_ok (Some rec_branded) = Ok c /\
    In (FillRect "#f8f9fa" 50 1430 1100 200) (cv_ops c) /\
    cv_height c < 1430 + 200.
Proof.
  eexists; split; [vm_compute; reflexivity|].
  split; [cbn; find_in | vm_compute; reflexivity].
Qed.

(* ------------------------------------------------------------------ *)
(** ** The theorems at concrete inputs *)

Definition empty_canvas : canvas := {| cv_width := 0; cv_height := 0; cv_ops := [] |}.
Definition canvas_of (r : result canvas) : canvas :=
  match r with Ok c => c | Err _ => empty_canvas end.
Definition canvas_branded : canvas :=
  canvas_of (createQRCanvas env_all_ok (Some rec_branded)).
Definition canvas_plain : canvas :=
  canvas_of (createQRCanvas env_all_ok (Some rec_plain)).
Definition ui0 : ui :=
  {| isDownloading := ""; alerts := []; console_errors := []; downloads := [] |}.

(** The license payload cannot be encoded. *)
Definition env_license_too_long : env := {|
  qr_encode := fun v _ =>
    if String.eqb v "https://example.com/b" then
      Some "The amount of data is too big to be stored in a QR Code"
    else None;
  qr_img_loads := true;
  final_img_loads := true;
  app_logo_loads := true;
  office_logo_loads := fun _ => true;
  context_available := true;
  now := 1760000000000%Z
|}.

(** The application logo fails to load. *)
Definition env_no_app_logo : env := {|
  qr_encode := fun _ _ => None;
  qr_img_loads := true;
  final_img_loads := true;
  app_logo_loads := false;
  office_logo_loads := fun _ => true;
  context_available := true;
  now := 1760000000000%Z
|}.

Lemma C1_witness :
  context_available env_bad_logo = true /\
  truthy (officeLogo rec_bad_logo) = true /\
  office_logo_loads env_bad_logo (officeLogo rec_bad_logo) = false /\
  createQRCanvas env_bad_logo (Some rec_bad_logo) = Err "Failed to load office logo".
Proof.
  split; [reflexivity|]. split; [reflexivity|]. split; [reflexivity|].
  apply (C1_office_logo_failure_rejects env_bad_logo rec_bad_logo ui0);
    reflexivity.
Defined.

Lemma C3_witness :
  createQRCanvas env_all_ok (Some rec_branded) = Ok canvas_branded /\
  cv_width canvas_branded = 1200 /\ cv_height canvas_branded = 1600.
Proof.
  assert (Hc : createQRCanvas env_all_ok (Some rec_branded) = Ok canvas_branded)
    by (vm_compute; reflexivity).
  destruct (C3_canvas_geometry env_all_ok rec_branded canvas_branded Hc)
    as (Hw & Hh & _).
  split; [exact Hc|]. split; assumption.
Defined.

Lemma C4_witness :
  createQRCodeImage env_all_ok "https://example.com/a" 900 true =
    Ok (Rendered 900 900
          (DrawImage (QRRaw "https://example.com/a" (qr_options_of 900)) 0 0 900 900
           :: logo_overlay true 900)) /\
  exists side bx by_ r rest,
    Rendered 900 900
      (DrawImage (QRRaw "https://example.com/a" (qr_options_of 900)) 0 0 900 900
       :: logo_overlay true 900) =
    Rendered 900 900 (DrawImage (QRRaw "https://example.com/a" (qr_options_of 900))
                        0 0 900 900
                      :: FillRoundRect "#FFFFFF" bx by_ side side r :: rest) /\
    side == 900 / 5.
Proof.
  assert (H : createQRCodeImage env_all_ok "https://example.com/a" 900 true =
    Ok (Rendered 900 900
          (DrawImage (QRRaw "https://example.com/a" (qr_options_of 900)) 0 0 900 900
           :: logo_overlay true 900))) by reflexivity.
  split; [exact H|].
  destruct (C4_logo_badge env_all_ok "https://example.com/a" 900 _ H)
    as (side & bx & by_ & r & rest & Heq & Hs & _).
  exists side, bx, by_, r, rest. split; assumption.
Defined.

Lemma C5_witness :
  createQRCanvas env_all_ok (Some rec_plain) = Ok canvas_plain /\
  downloadAsPDF env_all_ok (Some rec_plain) ui0 =
    {| isDownloading := ""; alerts := []; console_errors := [];
       downloads := [PdfFile (now env_all_ok)
            [[pdf_placement (canvas_image canvas_plain) a4_width_mm a4_height_mm
                1200 1600]]] |}.
Proof.
  assert (Hc : createQRCanvas env_all_ok (Some rec_plain) = Ok canvas_plain)
    by (vm_compute; reflexivity).
  split; [exact Hc|].
  exact (proj1 (C5_pdf_scaling env_all_ok rec_plain ui0 canvas_plain Hc)).
Defined.

Lemma C6_witness :
  qr_encode env_license_too_long (license rec_plain) (qr_options_of 150) =
    Some "The amount of data is too big to be stored in a QR Code" /\
  exists m,
    createQRCanvas env_license_too_long (Some rec_plain) = Err m /\
    downloads (downloadAsImage env_license_too_long (Some rec_plain) ui0) = [] /\
    isDownloading (downloadAsImage env_license_too_long (Some rec_plain) ui0) = "".
Proof.
  assert (H : qr_encode env_license_too_long (license rec_plain) (qr_options_of 150) =
    Some "The amount of data is too big to be stored in a QR Code") by reflexivity.
  split; [exact H|].
  destruct (C6_encoding_errors_surface env_license_too_long rec_plain ui0 _
              (or_intror H)) as (m & Hm & _ & Himg & _).
  exists m. rewrite Himg. split; [exact Hm|]. split; reflexivity.
Defined.

Lemma C7_witness :
  app_logo_loads env_no_app_logo = false /\
  exists bx by_ side r,
    createQRCodeImage env_no_app_logo "https://example.com/a" 900 true =
      Ok (Rendered 900 900
            [DrawImage (QRRaw "https://example.com/a" (qr_options_of 900)) 0 0 900 900;
             FillRoundRect "#FFFFFF" bx by_ side side r]) /\
    side == 900 / 5 /\ r == 0.2 * side.
Proof.
  split; [reflexivity|].
  apply (C7_app_logo_failure env_no_app_logo "https://example.com/a" 900);
    reflexivity.
Defined.

Lemma C8_witness :
  renderable (Some {| details := ""; license := "https://example.com/b";
                      officeName := ""; officeLogo := "" |}) = false /\
  QRContent_view false (Some {| details := ""; license := "https://example.com/b";
                                officeName := ""; officeLogo := "" |}) = VIncomplete.
Proof.
  destruct (C8_incomplete_records_not_composed false
              (Some {| details := ""; license := "https://example.com/b";
                       officeName := ""; officeLogo := "" |}) ""
              (or_introl eq_refl)) as (Hr & Hv & _).
  split; [exact Hr | exact (Hv eq_refl)].
Defined.

Lemma C9_witness :
  createQRCanvas env_all_ok (Some rec_branded) = Ok canvas_branded /\
  createQRCanvas env_no_app_logo (Some rec_branded) =
    Ok (canvas_of (createQRCanvas env_no_app_logo (Some rec_branded))) /\
  map geom_of (cv_ops canvas_branded) =
    map geom_of (cv_ops (canvas_of (createQRCanvas env_no_app_logo (Some rec_branded)))).
Proof.
  assert (H1 : createQRCanvas env_all_ok (Some rec_branded) = Ok canvas_branded)
    by (vm_compute; reflexivity).
  assert (H2 : createQRCanvas env_no_app_logo (Some rec_branded) =
    Ok (canvas_of (createQRCanvas env_no_app_logo (Some rec_branded))))
    by (vm_compute; reflexivity).
  destruct (C9_layout_deterministic _ _ _ _ _ _ H1 H2 eq_refl eq_refl)
    as (_ & _ & Hg & _).
  split; [exact H1|]. split; [exact H2|]. exact Hg.
Defined.

Lemma C10_witness :
  createQRCanvas env_all_ok (Some rec_branded) = Ok canvas_branded /\
  exists mainImg, In (DrawImage mainImg 150 370 900 900) (cv_ops canvas_branded).
Proof.
  assert (Hc : createQRCanvas env_all_ok (Some rec_branded) = Ok canvas_branded)
    by (vm_compute; reflexivity).
  split; [exact Hc|].
  destruct (C10_branding_offsets env_all_ok rec_branded canvas_branded Hc)
    as (_ & _ & _ & _ & Hqr & _).
  exact Hqr.
Defined.

(* ------------------------------------------------------------------ *)
(** ** Further properties of the QR page *)

(** Every run of an exporter has exactly one visible outcome: one alert
    and no file, or one file and no alert. With a record it always ends
    with the busy flag cleared; without one it leaves the flag as it was. *)
Theorem exporter_single_outcome (e : env) (qrData : option QRData) (u u' : ui)
    (Hrun : u' = downloadAsImage e qrData u \/ u' = downloadAsPDF e qrData u) :
  ((exists m : string, alerts u' = (alerts u ++ [m])%list) /\ downloads u' = downloads u \/
   (exists f : download, downloads u' = (downloads u ++ [f])%list) /\ alerts u' = alerts u) /\
  isDownloading u' =
    match qrData with None => isDownloading u | Some _ => "" end.
Proof.
  destruct Hrun as [->| ->];
    unfold downloadAsImage, downloadAsPDF; destruct qrData as [d|];
    [destruct (createQRCanvas e (Some d)) as [c|m] | |
     destruct (createQRCanvas e (Some d)) as [c|m] | ];
    cbn; (split; [|reflexivity]);
    first [right; split; [eexists; reflexivity | reflexivity]
          |left; split; [eexists; reflexivity | reflexivity]].
Qed.

(** A successful image export saves exactly one PNG, stamped with the
    current time, holding the whole 1200 x 1600 composed canvas, raises no
    alert and clears the busy flag. *)
Theorem downloadAsImage_success (e : env) (d : QRData) (u : ui) (c : canvas)
    (Hc : createQRCanvas e (Some d) = Ok c) :
  downloadAsImage e (Some d) u =
    {| isDownloading := ""; alerts := alerts u; console_errors := console_errors u;
       downloads := downloads u ++ [PngFile (now e) (Rendered 1200 1600 (cv_ops c))] |}.
Proof.
  unfold downloadAsImage. rewrite Hc.
  apply createQRCanvas_Ok in Hc as (mi & li & _ & _ & Hc).
  rewrite Hc. reflexivity.
Qed.

(** The document exporter's placement of a [w x h] bitmap on a
    [pw x ph] page keeps the bitmap's aspect ratio, leaves a margin of at
    least [1/40] of the page on every side, and fills 95% of the page in
    width or in height. *)
Theorem pdf_placement_fits (img : image) (pw ph w h : Q)
    (Hpw : 0 < pw) (Hph : 0 < ph) (Hw : 0 < w) (Hh : 0 < h) :
  let p := pdf_placement img pw ph w h in
  pl_w p * h == pl_h p * w /\
  pw / 40 <= pl_x p /\ pl_x p + pl_w p + pw / 40 <= pw /\
  ph / 40 <= pl_y p /\ pl_y p + pl_h p + ph / 40 <= ph /\
  (pl_w p == 0.95 * pw \/ pl_h p == 0.95 * ph).
Proof.
  intro p; subst p; unfold pdf_placement; cbn [pl_w pl_h pl_x pl_y].
  unfold nadd, nsub, nmul, ndiv, nmin; rewrite !Qred_eq.
  assert (Ha : w * (pw / w) == pw) by (field; lra).
  assert (Hb : h * (ph / h) == ph) by (field; lra).
  split; [ring|].
  destruct (Q.min_spec (pw / w) (ph / h)) as [[Hlt Hm]|[Hle Hm]]; rewrite Hm.
  - assert (Hha : h * (pw / w) <= h * (ph / h)) by (apply Qmult_le_l; lra).
    assert (E1 : w * (pw / w * 0.95) == pw * 0.95)
      by (transitivity (w * (pw / w) * 0.95); [ring | rewrite Ha; reflexivity]).
    assert (E2 : h * (pw / w * 0.95) == h * (pw / w) * 0.95) by ring.
    rewrite E1, E2.
    remember (h * (pw / w)) as X. rewrite Hb in Hha.
    clear HeqX Ha Hb E1 E2 Hm Hlt.
    repeat split; qlra.
  - assert (Hwb : w * (ph / h) <= w * (pw / w)) by (apply Qmult_le_l; lra).
    assert (E1 : h * (ph / h * 0.95) == ph * 0.95)
      by (transitivity (h * (ph / h) * 0.95); [ring | rewrite Hb; reflexivity]).
    assert (E2 : w * (ph / h * 0.95) == w * (ph / h) * 0.95) by ring.
    rewrite E1, E2.
    remember (w * (ph / h)) as X. rewrite Ha in Hwb.
    clear HeqX Ha Hb E1 E2 Hm Hle.
    repeat split; qlra.
Qed.

(** For a non-negative edge [S], the badge lies inside the QR image, its
    corner radius is at most half its side, and the logo, when drawn, lies
    inside the badge. *)
Theorem logo_badge_inside_symbol (e : env) (value : string) (S : Q) (img : image)
    (HS : 0 <= S) (Himg : createQRCodeImage e value S true = Ok img) :
  exists bx by_ side r rest,
    img = Rendered S S (DrawImage (QRRaw value (qr_options_of S)) 0 0 S S
                        :: FillRoundRect "#FFFFFF" bx by_ side side r :: rest) /\
    0 <= bx /\ bx + side <= S /\ 0 <= by_ /\ by_ + side <= S /\ 2 * r <= side /\
    (forall o, In o rest ->
       exists lx ly a, o = DrawImage AppLogo lx ly a a /\ 0 <= a /\
         bx <= lx /\ lx + a <= bx + side /\ by_ <= ly /\ ly + a <= by_ + side).
Proof.
  apply createQRCodeImage_logo in Himg as ->.
  unfold logo_overlay.
  eexists _, _, _, _, _; split; [reflexivity|].
  unfold nadd, nsub, nmul, ndiv; rewrite !Qred_eq.
  split; [qlra|]. split; [qlra|]. split; [qlra|]. split; [qlra|]. split; [qlra|].
  destruct (app_logo_loads e); cbn [In]; [|intros o []].
  intros o [<-|[]].
  eexists _, _, _; split; [reflexivity|].
  rewrite !Qred_eq.
  repeat split; qlra.
Qed.

(** Every text on the composed canvas is drawn in black, vertically
    centered on its anchor, at size 28 or 32, in [setCanvasFont]'s font
    stack, which ends with the generic [sans-serif] family. *)
Theorem canvas_text_font (e : env) (d : QRData) (c : canvas)
    (Hc : createQRCanvas e (Some d) = Ok c) :
  (forall st f al bl t x y,
     In (FillText st f al bl t x y) (cv_ops c) ->
     font_family f = fontStack /\ st = "#000000" /\ bl = "middle" /\
     (font_size f = 28 \/ font_size f = 32)) /\
  exists pre, fontStack = pre ++ "sans-serif".
Proof.
  split; [|exists "Tajawal, Segoe UI, Tahoma, Arial, "; reflexivity].
  apply createQRCanvas_Ok in Hc as (mi & li & _ & _ & ->).
  intros st f al bl t x y H.
  unfold expected_canvas, branding_ops in H; cbn [cv_ops] in H.
  destruct (truthy (officeName d)), (truthy (officeLogo d)); cbn in H;
    repeat (destruct H as [H|H];
            [try discriminate H; injection H; intros; subst; cbn; auto; fail|]);
    destruct H.
Qed.

(** Every image and rectangle drawn on the composed canvas lies within
    its width; all of them also lie within its height exactly when the
    record does not carry both an office name and an office logo (with
    both, the license panel and the license QR run past the bottom edge).
    Texts are not covered: their extent depends on font metrics. *)
Theorem canvas_bounds (e : env) (d : QRData) (c : canvas)
    (Hc : createQRCanvas e (Some d) = Ok c) :
  forallb (fits_horizontally (cv_width c)) (shape_boxes (cv_ops c)) = true /\
  (forallb (fits_vertically (cv_height c)) (shape_boxes (cv_ops c)) = true <->
   ~ (truthy (officeName d) = true /\ truthy (officeLogo d) = true)).
Proof.
  apply createQRCanvas_Ok in Hc as (mi & li & _ & _ & ->).
  unfold expected_canvas, branding_ops.
  destruct (truthy (officeName d)), (truthy (officeLogo d));
    (split; [vm_compute; reflexivity|]);
    vm_compute; intuition discriminate.
Qed.

(* ------------------------------------------------------------------ *)
(** ** Properties of the input form and the hand-over *)

Lemma getItem_setItem_same (st : storage) (k : string) (v : stored) :
  getItem (setItem st k v) k = Some v.
Proof. cbn. rewrite String.eqb_refl. reflexivity. Qed.

Lemma getItem_filter_other (st : storage) (k k' : string) :
  String.eqb k' k = false ->
  getItem (filter (fun p => negb (String.eqb k (fst p))) st) k' = getItem st k'.
Proof.
  intro Hne. induction st as [|[k0 v0] st IH]; [reflexivity|].
  cbn. destruct (String.eqb k k0) eqn:Hk; cbn.
  - apply String.eqb_eq in Hk; subst k0. rewrite Hne. exact IH.
  - destruct (String.eqb k' k0); [reflexivity | exact IH].
Qed.

(** [handleGenerate] always shows the two validation results: an empty
    field gets its "required" message, a non-empty field that [new URL]
    rejects gets the "invalid URL" message, a valid field none. When
    either field is rejected, nothing is stored, nothing is navigated to,
    no alert is raised and the generating flag is left as it was. With the
    Generate button enabled, the "required" messages never appear. *)
Theorem handleGenerate_validation (b : browser) (s : home) :
  let s' := handleGenerate b s in
  let dOk := truthy (h_propertyDetails s) && validateUrl b (h_propertyDetails s) in
  let lOk := truthy (h_propertyLicense s) && validateUrl b (h_propertyLicense s) in
  h_errors s' = (details_error b (h_propertyDetails s),
                 license_error b (h_propertyLicense s)) /\
  (h_propertyDetails s = "" -> fst (h_errors s') = details_required_msg) /\
  (h_propertyLicense s = "" -> snd (h_errors s') = license_required_msg) /\
  (h_propertyDetails s <> "" -> validateUrl b (h_propertyDetails s) = false ->
     fst (h_errors s') = invalid_url_msg) /\
  (h_propertyLicense s <> "" -> validateUrl b (h_propertyLicense s) = false ->
     snd (h_errors s') = invalid_url_msg) /\
  truthy (fst (h_errors s')) = negb dOk /\
  truthy (snd (h_errors s')) = negb lOk /\
  (dOk && lOk = false ->
     h_storage s' = h_storage s /\ h_pushed s' = h_pushed s /\
     h_isGenerating s' = h_isGenerating s /\ h_alerts s' = h_alerts s) /\
  (generate_enabled s = true ->
     fst (h_errors s') <> details_required_msg /\
     snd (h_errors s') <> license_required_msg).
Proof.
  intros s' dOk lOk.
  assert (Herr : h_errors s' = (details_error b (h_propertyDetails s),
                                license_error b (h_propertyLicense s))).
  { subst s'; unfold handleGenerate; cbn [fst snd].
    destruct (negb _ && negb _); [|reflexivity].
    cbn [h_officeLogo h_set_generating h_set_errors]. destruct (h_officeLogo s) as [f|]; [destruct (file_data_url f)|];
      unfold persist; try destruct (set_item_ok b); reflexivity. }
  rewrite Herr; cbn [fst snd].
  unfold details_error, license_error, generate_enabled, dOk, lOk.
  split; [reflexivity|].
  split; [intros ->; reflexivity|]. split; [intros ->; reflexivity|].
  split.
  { intros Hne Hv. rewrite Hv. unfold truthy.
    destruct (String.eqb_spec (h_propertyDetails s) ""); [contradiction|reflexivity]. }
  split.
  { intros Hne Hv. rewrite Hv. unfold truthy.
    destruct (String.eqb_spec (h_propertyLicense s) ""); [contradiction|reflexivity]. }
  split; [destruct (truthy (h_propertyDetails s)), (validateUrl b (h_propertyDetails s));
          reflexivity|].
  split; [destruct (truthy (h_propertyLicense s)), (validateUrl b (h_propertyLicense s));
          reflexivity|].
  split.
  - intro Hbad. subst s'. unfold handleGenerate, details_error, license_error.
    destruct (truthy (h_propertyDetails s)), (validateUrl b (h_propertyDetails s)),
      (truthy (h_propertyLicense s)), (validateUrl b (h_propertyLicense s));
      cbn in Hbad |- *; try discriminate; repeat split.
  - intro Hen. apply andb_true_iff in Hen as [Hen _].
    apply andb_true_iff in Hen as [Hd Hl]. rewrite Hd, Hl. cbn.
    unfold invalid_url_msg, details_required_msg, license_required_msg.
    split; [destruct (validateUrl b (h_propertyDetails s))
           |destruct (validateUrl b (h_propertyLicense s))];
      cbn; intro E; discriminate E.
Qed.

(** [handleLogoUpload] keeps a chosen file of at most 2 MiB (2097152
    bytes) and shows its preview; a larger file only raises the size
    alert and leaves the previous logo and preview in place; no file
    chosen changes nothing. *)
Theorem handleLogoUpload_size_limit (f : file) (s : home) :
  handleLogoUpload None s = s /\
  let s' := handleLogoUpload (Some f) s in
  ((file_size f <= 2097152)%Z ->
     h_officeLogo s' = Some f /\ h_logoPreview s' = file_object_url f /\
     h_alerts s' = h_alerts s) /\
  ((2097152 < file_size f)%Z ->
     h_officeLogo s' = h_officeLogo s /\ h_logoPreview s' = h_logoPreview s /\
     h_alerts s' = (h_alerts s ++ [logo_too_big_msg])%list).
Proof.
  split; [reflexivity|].
  cbn zeta. unfold handleLogoUpload.
  destruct (Z.gtb_spec (file_size f) (2 * 1024 * 1024)) as [H|H].
  - split; [intro; lia|]. intros _. repeat split.
  - split; [intros _; repeat split|]. intro; lia.
Qed.

Lemma handleGenerate_valid_eq (b : browser) (s : home)
  (Hd : truthy (h_propertyDetails s) = true)
  (Hdv : validateUrl b (h_propertyDetails s) = true)
  (Hl : truthy (h_propertyLicense s) = true)
  (Hlv : validateUrl b (h_propertyLicense s) = true) :
  handleGenerate b s =
    let s1 := h_set_generating (h_set_errors s ("", "")) true in
    let name := if truthy (h_officeName s) then h_officeName s else "" in
    match h_officeLogo s with
    | Some f =>
        match file_data_url f with
        | Some u => persist b {| details := h_propertyDetails s;
                                 license := h_propertyLicense s;
                                 officeName := name; officeLogo := u |} s1
        | None => s1
        end
    | None => persist b {| details := h_propertyDetails s;
                           license := h_propertyLicense s;
                           officeName := name; officeLogo := "" |} s1
    end.
Proof.
  unfold handleGenerate, details_error, license_error.
  rewrite Hd, Hdv, Hl, Hlv. reflexivity.
Qed.

Lemma officeName_or_empty (n : string) :
  (if truthy n then n else "") = n.
Proof. unfold truthy. destruct (String.eqb_spec n ""); cbn; congruence. Qed.

Lemma storageKey_truthy (b : browser) : truthy (storageKey b) = true.
Proof. reflexivity. Qed.

(** A successful Generate: with both URLs filled in and accepted, the
    logo (if any) read, and [localStorage.setItem] succeeding, the record
    holding the two URLs, the office name and the logo's data URL is stored
    under [qrData_<Date.now()>], the app navigates to [/qr] with that key
    as [dataKey], both error messages are cleared, the generating flag
    stays set and no alert is raised. *)
Theorem handleGenerate_success (b : browser) (s : home)
  (Hd : truthy (h_propertyDetails s) = true)
  (Hdv : validateUrl b (h_propertyDetails s) = true)
  (Hl : truthy (h_propertyLicense s) = true)
  (Hlv : validateUrl b (h_propertyLicense s) = true)
  (Hok : set_item_ok b = true)
  (Hread : forall f, h_officeLogo s = Some f -> file_data_url f <> None) :
  let s' := handleGenerate b s in
  exists d,
    h_storage s' = setItem (h_storage s) (storageKey b) (JsonRecord d) /\
    h_pushed s' = Some {| rt_path := "/qr";
                          rt_params := [("dataKey", storageKey b)] |} /\
    h_errors s' = ("", "") /\ h_isGenerating s' = true /\
    h_alerts s' = h_alerts s /\ h_console s' = h_console s /\
    details d = h_propertyDetails s /\ license d = h_propertyLicense s /\
    officeName d = h_officeName s /\
    match h_officeLogo s with
    | Some f => file_data_url f = Some (officeLogo d)
    | None => officeLogo d = ""
    end.
Proof.
  cbn zeta. rewrite (handleGenerate_valid_eq b s Hd Hdv Hl Hlv). cbn zeta.
  rewrite officeName_or_empty.
  destruct (h_officeLogo s) as [f|] eqn:Hf.
  - destruct (file_data_url f) as [u|] eqn:Hu;
      [|exfalso; exact (Hread f eq_refl Hu)].
    eexists; unfold persist; rewrite Hok; cbn.
    repeat split; reflexivity.
  - eexists; unfold persist; rewrite Hok; cbn.
    repeat split; reflexivity.
Qed.

(** The hand-over from the form to the QR page: after a successful
    Generate, the QR page's loading effect, run on the storage the form
    left and the query of the route it pushed, finishes loading with the
    record just stored, and the page shows it (both URLs non-empty). *)
Theorem generate_then_load (b : browser) (s : home)
  (Hd : truthy (h_propertyDetails s) = true)
  (Hdv : validateUrl b (h_propertyDetails s) = true)
  (Hl : truthy (h_propertyLicense s) = true)
  (Hlv : validateUrl b (h_propertyLicense s) = true)
  (Hok : set_item_ok b = true)
  (Hread : forall f, h_officeLogo s = Some f -> file_data_url f <> None) :
  let s' := handleGenerate b s in
  exists r d,
    h_pushed s' = Some r /\ rt_path r = "/qr" /\
    load_effect (h_storage s') (rt_params r) = (false, Some d) /\
    QRContent_view false (Some d) = VReady d /\
    details d = h_propertyDetails s /\ license d = h_propertyLicense s.
Proof.
  cbn zeta. rewrite (handleGenerate_valid_eq b s Hd Hdv Hl Hlv). cbn zeta.
  assert (Hload : forall d st, load_effect (setItem st (storageKey b) (JsonRecord d))
                                 [("dataKey", storageKey b)] = (false, Some d)).
  { intros d st. unfold load_effect. cbn [param]. rewrite String.eqb_refl.
    rewrite storageKey_truthy, getItem_setItem_same. reflexivity. }
  destruct (h_officeLogo s) as [f|] eqn:Hf.
  - destruct (file_data_url f) as [u|] eqn:Hu;
      [|exfalso; exact (Hread f eq_refl Hu)].
    do 2 eexists; unfold persist; rewrite Hok; cbn [h_pushed h_storage h_effects
      h_set_generating h_set_errors rt_path rt_params details license].
    split; [reflexivity|]. split; [reflexivity|]. split; [apply Hload|].
    unfold QRContent_view, renderable; cbn [details license]. rewrite Hd, Hl.
    repeat split.
  - do 2 eexists; unfold persist; rewrite Hok; cbn [h_pushed h_storage h_effects
      h_set_generating h_set_errors rt_path rt_params details license].
    split; [reflexivity|]. split; [reflexivity|]. split; [apply Hload|].
    unfold QRContent_view, renderable; cbn [details license]. rewrite Hd, Hl.
    repeat split.
Qed.

(** When [localStorage.setItem] throws, the [catch] of [handleGenerate]
    alerts the generic error, logs it, clears the generating flag so the
    button is usable again, and leaves storage and navigation untouched. *)
Theorem handleGenerate_storage_failure (b : browser) (s : home)
  (Hd : truthy (h_propertyDetails s) = true)
  (Hdv : validateUrl b (h_propertyDetails s) = true)
  (Hl : truthy (h_propertyLicense s) = true)
  (Hlv : validateUrl b (h_propertyLicense s) = true)
  (Hfail : set_item_ok b = false)
  (Hread : forall f, h_officeLogo s = Some f -> file_data_url f <> None) :
  let s' := handleGenerate b s in
  h_alerts s' = (h_alerts s ++ [generate_error_msg])%list /\
  h_console s' = (h_console s ++ ["Error generating QR codes:"])%list /\
  h_isGenerating s' = false /\ generate_enabled s' = true /\
  h_storage s' = h_storage s /\ h_pushed s' = h_pushed s /\
  h_errors s' = ("", "").
Proof.
  cbn zeta. rewrite (handleGenerate_valid_eq b s Hd Hdv Hl Hlv). cbn zeta.
  unfold generate_enabled.
  destruct (h_officeLogo s) as [f|] eqn:Hf.
  - destruct (file_data_url f) as [u|] eqn:Hu;
      [|exfalso; exact (Hread f eq_refl Hu)].
    unfold persist; rewrite Hfail; cbn. rewrite Hd, Hl. repeat split.
  - unfold persist; rewrite Hfail; cbn. rewrite Hd, Hl. repeat split.
Qed.

(** A chosen logo whose [FileReader] never calls [onload] (the code sets
    no [onerror]): [handleGenerate] stays pending for good. Nothing is
    stored, no navigation happens, no alert is raised, and the Generate
    button remains disabled. *)
Theorem handleGenerate_logo_read_stalls (b : browser) (s : home) (f : file)
  (Hd : truthy (h_propertyDetails s) = true)
  (Hdv : validateUrl b (h_propertyDetails s) = true)
  (Hl : truthy (h_propertyLicense s) = true)
  (Hlv : validateUrl b (h_propertyLicense s) = true)
  (Hf : h_officeLogo s = Some f)
  (Hnever : file_data_url f = None) :
  let s' := handleGenerate b s in
  h_isGenerating s' = true /\ generate_enabled s' = false /\
  h_storage s' = h_storage s /\ h_pushed s' = h_pushed s /\
  h_alerts s' = h_alerts s.
Proof.
  cbn zeta. rewrite (handleGenerate_valid_eq b s Hd Hdv Hl Hlv). cbn zeta.
  rewrite Hf, Hnever. unfold generate_enabled. cbn.
  rewrite andb_false_r. repeat split.
Qed.

(** The QR page's loading effect always ends the loading state, and it
    ends with no record (the "incomplete data" screen) when the query has
    no [dataKey] or an empty one, when nothing is stored under the key, or
    when what is stored there is not valid JSON. *)
Theorem load_effect_incomplete (st : storage) (ps : list (string * string))
  (Hmiss : param ps "dataKey" = None \/ param ps "dataKey" = Some "" \/
           exists k, param ps "dataKey" = Some k /\
             (getItem st k = None \/ exists t, getItem st k = Some (Unparsable t))) :
  load_effect st ps = (false, None) /\
  QRContent_view (fst (load_effect st ps)) (snd (load_effect st ps)) = VIncomplete.
Proof.
  assert (H : load_effect st ps = (false, None)).
  { unfold load_effect.
    destruct Hmiss as [H|[H|[k [H [H'|[t H']]]]]]; rewrite H; try reflexivity.
    - destruct (truthy k); [rewrite H'|]; reflexivity.
    - destruct (truthy k); [rewrite H'|]; reflexivity. }
  rewrite H. split; reflexivity.
Qed.

(** Whatever storage and query it reads, the loading effect leaves the
    loading state, and any record it yields is exactly the record stored
    under the query's [dataKey]. *)
Theorem load_effect_reads_key (st : storage) (ps : list (string * string)) :
  fst (load_effect st ps) = false /\
  forall d, snd (load_effect st ps) = Some d ->
    exists k, param ps "dataKey" = Some k /\ getItem st k = Some (JsonRecord d).
Proof.
  unfold load_effect.
  destruct (param ps "dataKey") as [k|] eqn:Hk.
  - destruct (truthy k); [|split; [reflexivity | discriminate]].
    destruct (getItem st k) as [[d0|t]|] eqn:Hg;
      (split; [reflexivity|]); cbn; try discriminate.
    intros d Hd; injection Hd as <-. exists k. split; [reflexivity | exact Hg].
  - split; [reflexivity | discriminate].
Qed.

(* ------------------------------------------------------------------ *)
(** ** Storage keys *)

Lemma str_app_assoc (a b c : string) :
  ((a ++ b) ++ c)%string = (a ++ (b ++ c))%string.
Proof. induction a as [|x a IH]; cbn; [reflexivity | rewrite IH; reflexivity]. Qed.

Lemma str_snoc_inj (s1 s2 : string) (a b : Ascii.ascii) :
  (s1 ++ String a "")%string = (s2 ++ String b "")%string -> s1 = s2 /\ a = b.
Proof.
  revert s2. induction s1 as [|x s1 IH]; intros [|y s2] E; cbn in E.
  - injection E as ->. split; reflexivity.
  - injection E as -> E. destruct s2; discriminate E.
  - injection E as -> E. destruct s1; discriminate E.
  - injection E as -> E. destruct (IH s2 E) as [-> ->]. split; reflexivity.
Qed.

Lemma str_app_cancel (p a b : string) :
  (p ++ a)%string = (p ++ b)%string -> a = b.
Proof. induction p as [|x p IH]; cbn; [trivial | intro E; injection E; exact IH]. Qed.

Lemma str_snoc_nonempty (s : string) (a : Ascii.ascii) :
  (s ++ String a "")%string <> "".
Proof. destruct s; discriminate. Qed.

Lemma digits_aux_app (f : nat) : forall n acc,
  digits_aux f n acc = (digits_aux f n "" ++ acc)%string.
Proof.
  induction f as [|f IH]; intros n acc; [reflexivity|].
  cbn [digits_aux]. destruct (n <? 10)%N; [reflexivity|].
  rewrite (IH _ (String _ acc)), (IH _ (String _ "")), str_app_assoc.
  reflexivity.
Qed.

Lemma digits_aux_S (g : nat) (x : N) :
  digits_aux (S g) x "" =
    ((if (x <? 10)%N then "" else digits_aux g (x / 10) "")
     ++ String (Ascii.ascii_of_N (48 + x mod 10)) "")%string.
Proof. cbn [digits_aux]. destruct (x <? 10)%N; [reflexivity|]. apply digits_aux_app. Qed.

Lemma digit_inj (x y : N) :
  Ascii.ascii_of_N (48 + x mod 10) = Ascii.ascii_of_N (48 + y mod 10) ->
  (x mod 10 = y mod 10)%N.
Proof.
  intro E. apply (f_equal Ascii.N_of_ascii) in E.
  pose proof (N.mod_lt x 10) as Hx. pose proof (N.mod_lt y 10) as Hy.
  rewrite !Ascii.N_ascii_embedding in E by lia. lia.
Qed.

Lemma digits_inj (f : nat) : forall f' n m,
  (n < 10 ^ N.of_nat f)%N -> (m < 10 ^ N.of_nat f')%N ->
  digits_aux f n "" = digits_aux f' m "" -> n = m.
Proof.
  induction f as [|g IH]; intros [|g'] n m Hn Hm E.
  - cbn in Hn, Hm. lia.
  - rewrite digits_aux_S in E. exfalso. exact (str_snoc_nonempty _ _ (eq_sym E)).
  - rewrite digits_aux_S in E. exfalso. exact (str_snoc_nonempty _ _ E).
  - rewrite !digits_aux_S in E. apply str_snoc_inj in E as [Ep Ec].
    apply digit_inj in Ec.
    rewrite Nnat.Nat2N.inj_succ, N.pow_succ_r' in Hn, Hm.
    pose proof (N.div_mod n 10) as Dn. pose proof (N.div_mod m 10) as Dm.
    destruct (N.ltb_spec n 10), (N.ltb_spec m 10).
    + rewrite !N.mod_small in Ec by assumption. exact Ec.
    + destruct g' as [|g''].
      * cbn in Hm. lia.
      * rewrite digits_aux_S in Ep. exfalso. exact (str_snoc_nonempty _ _ (eq_sym Ep)).
    + destruct g as [|g0].
      * cbn in Hn. lia.
      * rewrite digits_aux_S in Ep. exfalso. exact (str_snoc_nonempty _ _ Ep).
    + assert (Hq : (n / 10 = m / 10)%N).
      { apply (IH g'); [apply N.Div0.div_lt_upper_bound; lia
                       |apply N.Div0.div_lt_upper_bound; lia | exact Ep]. }
      specialize (Dn ltac:(discriminate)). specialize (Dm ltac:(discriminate)).
      lia.
Qed.

Lemma pos_size_bound (p : positive) : (N.pos p < 2 ^ N.of_nat (Pos.size_nat p))%N.
Proof.
  induction p as [p IH|p IH|]; cbn [Pos.size_nat].
  - rewrite Nnat.Nat2N.inj_succ, N.pow_succ_r'.
    change (N.pos p~1) with (2 * N.pos p + 1)%N. lia.
  - rewrite Nnat.Nat2N.inj_succ, N.pow_succ_r'.
    change (N.pos p~0) with (2 * N.pos p)%N. lia.
  - reflexivity.
Qed.

Lemma N_to_string_fuel (n : N) : (n < 10 ^ N.of_nat (S (N.size_nat n)))%N.
Proof.
  destruct n as [|p]; [reflexivity|]. cbn [N.size_nat].
  pose proof (pos_size_bound p) as H.
  assert (H2 : (2 ^ N.of_nat (Pos.size_nat p) <= 10 ^ N.of_nat (Pos.size_nat p))%N)
    by (apply N.pow_le_mono_l; lia).
  assert (H3 : (10 ^ N.of_nat (Pos.size_nat p) <= 10 ^ N.of_nat (S (Pos.size_nat p)))%N)
    by (apply N.pow_le_mono_r; lia).
  lia.
Qed.

(** [`qrData_${Date.now()}`]: Generate clicks at different milliseconds
    use different storage keys, so a later Generate never overwrites the
    record an earlier one stored. *)
Theorem storageKey_distinct (b1 b2 : browser) (st : storage) (v : stored)
  (Ht : date_now b1 <> date_now b2) :
  storageKey b1 <> storageKey b2 /\
  getItem (setItem st (storageKey b2) v) (storageKey b1) = getItem st (storageKey b1).
Proof.
  assert (Hk : storageKey b1 <> storageKey b2).
  { unfold storageKey, N_to_string. intro E. apply str_app_cancel in E.
    exact (Ht (digits_inj _ _ _ _ (N_to_string_fuel _) (N_to_string_fuel _) E)). }
  split; [exact Hk|].
  unfold setItem. cbn [getItem].
  destruct (String.eqb_spec (storageKey b1) (storageKey b2)) as [E|_];
    [contradiction|].
  apply getItem_filter_other. apply String.eqb_neq. exact Hk.
Qed.

(* ------------------------------------------------------------------ *)
(** ** Exports on A4, and export failures *)

(** On the A4 page of [downloadAsPDF] the 1200 x 1600 bitmap is bound by
    the page width: it spans 95% of the width with a margin of 1/40 of the
    width on the left and on the right, keeps its 3:4 aspect, and leaves
    more than 1/40 of the page height above it. *)
Theorem downloadAsPDF_a4_fill (e : env) (d : QRData) (u : ui) (c : canvas)
    (Hc : createQRCanvas e (Some d) = Ok c) :
  exists pl,
    downloads (downloadAsPDF e (Some d) u) =
      (downloads u ++ [PdfFile (now e) [[pl]]])%list /\
    pl_img pl = Rendered 1200 1600 (cv_ops c) /\
    pl_w pl == 0.95 * a4_width_mm /\
    pl_h pl * 3 == pl_w pl * 4 /\
    pl_x pl == a4_width_mm / 40 /\
    pl_x pl + pl_w pl + a4_width_mm / 40 == a4_width_mm /\
    a4_height_mm / 40 < pl_y pl.
Proof.
  unfold downloadAsPDF. rewrite Hc.
  apply createQRCanvas_Ok in Hc as (mi & li & _ & _ & Hc). subst c.
  eexists. split; [reflexivity|]. split; [reflexivity|].
  repeat split; vm_compute; reflexivity.
Qed.

(** When composition fails, either exporter logs the composition error
    to the console, shows its own alert (a different one for the image
    and the document), saves no file, and clears the busy flag. *)
Theorem exporter_failure_reported (e : env) (d : QRData) (u : ui) (m : string)
    (Hm : createQRCanvas e (Some d) = Err m) :
  downloadAsImage e (Some d) u =
    {| isDownloading := ""; alerts := (alerts u ++ [image_error_msg])%list;
       console_errors := (console_errors u ++ [m])%list;
       downloads := downloads u |} /\
  downloadAsPDF e (Some d) u =
    {| isDownloading := ""; alerts := (alerts u ++ [pdf_error_msg])%list;
       console_errors := (console_errors u ++ [m])%list;
       downloads := downloads u |} /\
  image_error_msg <> pdf_error_msg.
Proof.
  unfold downloadAsImage, downloadAsPDF. rewrite Hm.
  split; [reflexivity|]. split; [reflexivity|].
  unfold image_error_msg, pdf_error_msg. intro E; discriminate E.
Qed.

(* ------------------------------------------------------------------ *)
(** ** The properties above at concrete inputs *)

Lemma home_filled_logo_read :
  forall f, h_officeLogo (home_filled logo_png) = Some f -> file_data_url f <> None.
Proof. intros f Hf. injection Hf as <-. discriminate. Qed.

Lemma exporter_single_outcome_witness :
  isDownloading (downloadAsPDF env_all_ok (Some rec_plain) ui0) = "".
Proof.
  exact (proj2 (exporter_single_outcome env_all_ok (Some rec_plain) ui0 _
                  (or_intror eq_refl))).
Defined.

Lemma downloadAsImage_success_witness :
  createQRCanvas env_all_ok (Some rec_branded) = Ok canvas_branded /\
  downloads (downloadAsImage env_all_ok (Some rec_branded) ui0) =
    [PngFile (now env_all_ok) (Rendered 1200 1600 (cv_ops canvas_branded))].
Proof.
  assert (Hc : createQRCanvas env_all_ok (Some rec_branded) = Ok canvas_branded)
    by (vm_compute; reflexivity).
  split; [exact Hc|].
  rewrite (downloadAsImage_success env_all_ok rec_branded ui0 canvas_branded Hc).
  reflexivity.
Defined.

Lemma pdf_placement_fits_witness :
  0 < a4_width_mm /\ 0 < a4_height_mm /\
  (pl_w (pdf_placement AppLogo a4_width_mm a4_height_mm 1200 1600) == 0.95 * a4_width_mm \/
   pl_h (pdf_placement AppLogo a4_width_mm a4_height_mm 1200 1600) == 0.95 * a4_height_mm).
Proof.
  assert (H1 : 0 < a4_width_mm) by (vm_compute; reflexivity).
  assert (H2 : 0 < a4_height_mm) by (vm_compute; reflexivity).
  assert (H3 : 0 < 1200) by (vm_compute; reflexivity).
  assert (H4 : 0 < 1600) by (vm_compute; reflexivity).
  split; [exact H1|]. split; [exact H2|].
  destruct (pdf_placement_fits AppLogo a4_width_mm a4_height_mm 1200 1600 H1 H2 H3 H4)
    as (_ & _ & _ & _ & _ & H). exact H.
Defined.

Lemma logo_badge_inside_symbol_witness :
  createQRCodeImage env_all_ok "https://example.com/a" 900 true = Ok details_symbol /\
  exists bx by_ side r rest,
    details_symbol =
      Rendered 900 900 (DrawImage (QRRaw "https://example.com/a" (qr_options_of 900))
                          0 0 900 900
                        :: FillRoundRect "#FFFFFF" bx by_ side side r :: rest) /\
    0 <= bx /\ bx + side <= 900.
Proof.
  assert (Himg : createQRCodeImage env_all_ok "https://example.com/a" 900 true =
                 Ok details_symbol) by (vm_compute; reflexivity).
  assert (HS : 0 <= 900) by (vm_compute; discriminate).
  split; [exact Himg|].
  destruct (logo_badge_inside_symbol env_all_ok _ 900 details_symbol HS Himg)
    as (bx & by_ & side & r & rest & Heq & H1 & H2 & _).
  exists bx, by_, side, r, rest. split; [exact Heq|]. split; assumption.
Defined.

Lemma canvas_text_font_witness :
  createQRCanvas env_all_ok (Some rec_branded) = Ok canvas_branded /\
  forall st f al bl t x y,
    In (FillText st f al bl t x y) (cv_ops canvas_branded) -> font_family f = fontStack.
Proof.
  assert (Hc : createQRCanvas env_all_ok (Some rec_branded) = Ok canvas_branded)
    by (vm_compute; reflexivity).
  split; [exact Hc|].
  intros st f al bl t x y H.
  exact (proj1 (proj1 (canvas_text_font env_all_ok rec_branded canvas_branded Hc)
                  st f al bl t x y H)).
Defined.

Lemma canvas_bounds_witness :
  createQRCanvas env_all_ok (Some rec_branded) = Ok canvas_branded /\
  forallb (fits_horizontally (cv_width canvas_branded))
    (shape_boxes (cv_ops canvas_branded)) = true.
Proof.
  assert (Hc : createQRCanvas env_all_ok (Some rec_branded) = Ok canvas_branded)
    by (vm_compute; reflexivity).
  split; [exact Hc|].
  exact (proj1 (canvas_bounds env_all_ok rec_branded canvas_branded Hc)).
Defined.

Lemma handleGenerate_success_witness :
  h_pushed (handleGenerate browser_ok (home_filled logo_png)) =
    Some {| rt_path := "/qr"; rt_params := [("dataKey", storageKey browser_ok)] |}.
Proof.
  destruct (handleGenerate_success browser_ok (home_filled logo_png)
              eq_refl eq_refl eq_refl eq_refl eq_refl home_filled_logo_read)
    as (d & _ & Hp & _). exact Hp.
Defined.

Lemma generate_then_load_witness :
  exists r d,
    h_pushed (handleGenerate browser_ok (home_filled logo_png)) = Some r /\
    load_effect (h_storage (handleGenerate browser_ok (home_filled logo_png)))
      (rt_params r) = (false, Some d).
Proof.
  destruct (generate_then_load browser_ok (home_filled logo_png)
              eq_refl eq_refl eq_refl eq_refl eq_refl home_filled_logo_read)
    as (r & d & Hp & _ & Hl & _).
  exists r, d. split; assumption.
Defined.

Lemma handleGenerate_storage_failure_witness :
  h_alerts (handleGenerate browser_full (home_filled logo_png)) = [generate_error_msg].
Proof.
  exact (proj1 (handleGenerate_storage_failure browser_full (home_filled logo_png)
                  eq_refl eq_refl eq_refl eq_refl eq_refl home_filled_logo_read)).
Defined.

Lemma handleGenerate_logo_read_stalls_witness :
  generate_enabled (handleGenerate browser_ok (home_filled logo_unread)) = false.
Proof.
  exact (proj1 (proj2 (handleGenerate_logo_read_stalls browser_ok
                         (home_filled logo_unread) logo_unread
                         eq_refl eq_refl eq_refl eq_refl eq_refl eq_refl))).
Defined.

Lemma load_effect_incomplete_witness :
  load_effect [("qrData_1", Unparsable "{")] [("dataKey", "qrData_1")] = (false, None).
Proof.
  apply (load_effect_incomplete [("qrData_1", Unparsable "{")] [("dataKey", "qrData_1")]).
  right; right. exists "qrData_1". split; [reflexivity|].
  right. exists "{". reflexivity.
Defined.

Lemma storageKey_distinct_witness :
  storageKey browser_ok <> storageKey browser_later.
Proof.
  exact (proj1 (storageKey_distinct browser_ok browser_later [] (Unparsable "")
                  ltac:(discriminate))).
Defined.

Lemma downloadAsPDF_a4_fill_witness :
  exists pl,
    downloads (downloadAsPDF env_all_ok (Some rec_plain) ui0) =
      [PdfFile (now env_all_ok) [[pl]]] /\
    pl_w pl == 0.95 * a4_width_mm.
Proof.
  assert (Hc : createQRCanvas env_all_ok (Some rec_plain) = Ok canvas_plain)
    by (vm_compute; reflexivity).
  destruct (downloadAsPDF_a4_fill env_all_ok rec_plain ui0 canvas_plain Hc)
    as (pl & Hd & _ & Hw & _).
  exists pl. split; assumption.
Defined.

Lemma exporter_failure_reported_witness :
  console_errors (downloadAsPDF env_license_too_long (Some rec_plain) ui0) =
    ["The amount of data is too big to be stored in a QR Code"].
Proof.
  assert (Hm : createQRCanvas env_license_too_long (Some rec_plain) =
               Err "The amount of data is too big to be stored in a QR Code")
    by (vm_compute; reflexivity).
  rewrite (proj1 (proj2 (exporter_failure_reported env_license_too_long rec_plain ui0 _ Hm))).
  reflexivity.
Defined.
